(** * QueryMancer: schema-to-natural-language mapping, text core

    A shallow embedding of [querymancer/utils.py] and of the class
    [MappingGenerator] of [querymancer/mapping_generator.py], with the
    properties the specification states about them; then of the
    [ConfigManager] of [querymancer/config.py] and of what the
    [SchemaExtractor] of [querymancer/schema_extractor.py] makes of the
    answers of the database, with further properties of the whole.

    Conventions of the embedding.
    - A Python [str] is a [string]; the characters are read as ASCII code
      points, which is what database identifiers are made of.  Case mapping
      and the character classes are the ASCII ones; a code point above 127 is
      a caseless symbol that is neither a letter, a digit nor a blank.
    - [list(set(xs))] enumerates the distinct members of [xs] in an order
      Python leaves unspecified.  The order is a parameter ([SetOrder]): the
      theorems hold for each admissible order, and [default_order] is the
      one the concrete evaluations use.
    - A Python [dict] remembers insertion order: it is an association list
      with distinct keys ([PyDict]).
    - Logging is not modelled; the clock readings of
      [datetime.now().isoformat()] are arguments, and so are the answers of
      the database to the queries of the extractor. *)

From Stdlib Require Import String Ascii List Bool Arith ZArith Lia Permutation.
From Stdlib Require Import DecimalString.
Import ListNotations.
Open Scope string_scope.
Open Scope list_scope.
Open Scope nat_scope.
Open Scope bool_scope.

(** ** Python string primitives *)

Module Py.

Definition in_range (lo hi : nat) (c : ascii) : bool :=
  let n := nat_of_ascii c in (lo <=? n) && (n <=? hi).

Definition is_upper (c : ascii) : bool := in_range 65 90 c.
Definition is_lower (c : ascii) : bool := in_range 97 122 c.
Definition is_digit (c : ascii) : bool := in_range 48 57 c.

(** [str.isspace] on one character, also the class [\s] of [re]:
    TAB, LF, VT, FF, CR, the separators FS, GS, RS, US, and the space. *)
Definition is_space (c : ascii) : bool := in_range 9 13 c || in_range 28 32 c.

Definition to_lower (c : ascii) : ascii :=
  if is_upper c then ascii_of_nat (nat_of_ascii c + 32) else c.

Definition to_upper (c : ascii) : ascii :=
  if is_lower c then ascii_of_nat (nat_of_ascii c - 32) else c.

Fixpoint map (f : ascii -> ascii) (s : string) : string :=
  match s with
  | EmptyString => EmptyString
  | String c r => String (f c) (map f r)
  end.

Fixpoint forallb (p : ascii -> bool) (s : string) : bool :=
  match s with
  | EmptyString => true
  | String c r => p c && forallb p r
  end.

(** [s.lower()] on ASCII text: the letters [A] to [Z] become [a] to [z].
    Outside ASCII [str.lower] maps further characters, the Kelvin sign
    U+212A to [k] for one; a statement that would rest on the difference
    names the restriction to ASCII text. *)
Definition lower (s : string) : string := map to_lower s.

(** [w.capitalize()]: first character upper-cased, the others lower-cased. *)
Definition capitalize (w : string) : string :=
  match w with
  | EmptyString => EmptyString
  | String c r => String (to_upper c) (lower r)
  end.

(** Truth value of a string: [bool(s)]. *)
Definition truthy (s : string) : bool :=
  match s with EmptyString => false | String _ _ => true end.

(** [s.startswith(p)] *)
Definition startswith (s p : string) : bool := prefix p s.

Fixpoint drop (n : nat) (s : string) : string :=
  match n, s with
  | O, _ => s
  | S _, EmptyString => EmptyString
  | S m, String _ r => drop m r
  end.

Fixpoint take (n : nat) (s : string) : string :=
  match n, s with
  | O, _ => EmptyString
  | S _, EmptyString => EmptyString
  | S m, String c r => String c (take m r)
  end.

(** [s.endswith(p)] *)
Definition endswith (s p : string) : bool :=
  (String.length p <=? String.length s)
  && String.eqb (drop (String.length s - String.length p) s) p.

(** [s[n:]] and, for [0 < n], [s[:-n]]. *)
Definition slice_from (n : nat) (s : string) : string := drop n s.
Definition slice_to_minus (n : nat) (s : string) : string :=
  take (String.length s - n) s.

(** [sub in s] *)
Fixpoint contains (sub s : string) : bool :=
  prefix sub s ||
  match s with
  | EmptyString => false
  | String _ r => contains sub r
  end.

(** [any(term in s for term in terms)] *)
Definition any_in (terms : list string) (s : string) : bool :=
  existsb (fun term => contains term s) terms.

(** [s.replace(a, b)] for single characters. *)
Definition replace_char (a b : ascii) (s : string) : string :=
  map (fun c => if Ascii.eqb c a then b else c) s.

(** [s.split()]: the maximal blank-free runs of [s], in order.  [w] is the
    run being read. *)
Fixpoint split_from (w s : string) : list string :=
  match s with
  | EmptyString => if truthy w then [w] else []
  | String c r =>
      if is_space c
      then (if truthy w then w :: split_from "" r else split_from "" r)
      else split_from (w ++ String c "")%string r
  end.

Definition split (s : string) : list string := split_from "" s.

(** [sep.join(ws)] *)
Definition join (sep : string) (ws : list string) : string := String.concat sep ws.

Fixpoint lstrip (s : string) : string :=
  match s with
  | EmptyString => EmptyString
  | String c r => if is_space c then lstrip r else s
  end.

(** [s.rstrip()]: a blank is kept only when something follows it. *)
Fixpoint rstrip (s : string) : string :=
  match s with
  | EmptyString => EmptyString
  | String c r =>
      let r' := rstrip r in
      if is_space c && negb (truthy r') then EmptyString else String c r'
  end.

(** [s.strip()] *)
Definition strip (s : string) : string := rstrip (lstrip s).

(** [x in xs] for a list of strings. *)
Definition mem (x : string) (xs : list string) : bool :=
  existsb (String.eqb x) xs.

(** *** Notions for the statements *)

Definition not_space (c : ascii) : bool := negb (is_space c).

(** A word made of characters of class [p]: not empty. *)
Definition is_word (p : ascii -> bool) (w : string) : Prop :=
  truthy w = true /\ forallb p w = true.

(** The spellings of a lower-case text: each letter in either case. *)
Fixpoint spellings (t : string) : list string :=
  match t with
  | EmptyString => [EmptyString]
  | String d r =>
      flat_map
        (fun v => if is_lower d then [String d v; String (to_upper d) v]
                  else [String d v])
        (spellings r)
  end.

End Py.

(** ** The order of [list(set(xs))] *)

(** An admissible enumeration of the distinct members of a list. *)
Class SetOrder := {
  set_list : list string -> list string;
  set_list_NoDup : forall xs, NoDup (set_list xs);
  set_list_In : forall xs x, In x (set_list xs) <-> In x xs
}.

(** One admissible order: the last occurrence of each member, in list order. *)
Definition last_occurrences (xs : list string) : list string :=
  nodup string_dec xs.

(** ** Insertion-ordered dictionaries *)

Module PyDict.
Section Dict.
Context {V : Type}.

Definition t := list (string * V).

Definition empty : t := [].

(** [d.get(k)] *)
Fixpoint get (k : string) (d : t) : option V :=
  match d with
  | [] => None
  | (k', v) :: r => if String.eqb k k' then Some v else get k r
  end.

(** [k in d] *)
Definition has (k : string) (d : t) : bool :=
  match get k d with Some _ => true | None => false end.

(** [d[k] = v]: an existing key keeps its place, a new one goes last. *)
Fixpoint set (k : string) (v : V) (d : t) : t :=
  match d with
  | [] => [(k, v)]
  | (k', v') :: r =>
      if String.eqb k k' then (k', v) :: r else (k', v') :: set k v r
  end.

Definition keys (d : t) : list string := List.map fst d.
Definition values (d : t) : list V := List.map snd d.
Definition items (d : t) : list (string * V) := d.
Definition len (d : t) : nat := List.length d.

(** The keys of a dictionary are pairwise distinct. *)
Definition wf (d : t) : Prop := NoDup (keys d).
End Dict.
Arguments t V : clear implicits.

(** The loop [for x in xs: d[key(x)] = value(x)]. *)
Definition build {A V : Type} (key : A -> string) (value : A -> V)
    (xs : list A) (d : t V) : t V :=
  fold_left (fun d x => set (key x) (value x) d) xs d.
End PyDict.

(** ** [querymancer/utils.py] *)

Module Utils.
Import Py.

(** [re.sub(r'[^a-zA-Z0-9\s]', ' ', text)] on one character. *)
Definition blank_special (c : ascii) : ascii :=
  if is_lower c || is_upper c || is_digit c || is_space c then c else " "%char.

Definition normalize_text (text : string) : string :=
  if negb (truthy text) then ""
  else
    let normalized := map blank_special text in
    join " " (split (lower normalized)).

(** [re.sub(r'([a-z])([A-Z])', r'\1 \2', s)]: matches are found from the
    left and do not overlap. *)
Fixpoint sub_lower_upper (s : string) : string :=
  match s with
  | EmptyString => EmptyString
  | String a t =>
      match t with
      | EmptyString => s
      | String b r =>
          if is_lower a && is_upper b
          then String a (String " " (String b (sub_lower_upper r)))
          else String a (sub_lower_upper t)
      end
  end.

(** [re.sub(r'([A-Z])([A-Z][a-z])', r'\1 \2', s)] *)
Fixpoint sub_upper_upper_lower (s : string) : string :=
  match s with
  | EmptyString => EmptyString
  | String a t =>
      match t with
      | String b (String c r) =>
          if is_upper a && is_upper b && is_lower c
          then String a (String " " (String b (String c (sub_upper_upper_lower r))))
          else String a (sub_upper_upper_lower t)
      | _ => String a (sub_upper_upper_lower t)
      end
  end.

Definition camel_case_to_words (camel_case : string) : string :=
  if negb (truthy camel_case) then ""
  else
    let text := camel_case in
    let result := sub_lower_upper text in
    let result := sub_upper_upper_lower result in
    result.

Definition snake_case_to_words (snake_case : string) : string :=
  if negb (truthy snake_case) then ""
  else
    let words := replace_char "_" " " snake_case in
    let words := camel_case_to_words words in
    strip words.

Definition synonym_map : PyDict.t (list string) :=
  [ ("id", ["identifier"; "key"; "number"]);
    ("name", ["title"; "label"; "description"]);
    ("date", ["time"; "timestamp"; "created"; "modified"]);
    ("user", ["person"; "customer"; "client"; "employee"]);
    ("order", ["purchase"; "transaction"; "sale"]);
    ("product", ["item"; "goods"; "service"]);
    ("address", ["location"; "place"]);
    ("phone", ["telephone"; "mobile"; "contact"]);
    ("email", ["mail"; "contact"]);
    ("price", ["cost"; "amount"; "value"]);
    ("quantity", ["amount"; "count"; "number"]);
    ("status", ["state"; "condition"]);
    ("type", ["category"; "kind"; "classification"]);
    ("code", ["identifier"; "reference"]);
    ("description", ["details"; "notes"; "comments"]);
    ("created", ["added"; "inserted"; "made"]);
    ("updated", ["modified"; "changed"; "edited"]);
    ("deleted", ["removed"; "archived"]);
    ("active", ["enabled"; "current"; "valid"]);
    ("inactive", ["disabled"; "archived"; "old"]) ].

(** The list [synonyms] just before [list(set(synonyms))]. *)
Definition synonym_candidates (word : string) : list string :=
  let word_lower := lower word in
  let synonyms := [word] in
  let synonyms :=
    match PyDict.get word_lower synonym_map with
    | Some values => synonyms ++ values
    | None => synonyms
    end in
  fold_left
    (fun synonyms kv =>
       let '(key, values) := kv in
       if contains key word_lower || contains word_lower key
       then synonyms ++ values else synonyms)
    (PyDict.items synonym_map) synonyms.

Definition generate_synonyms `{SetOrder} (word : string) : list string :=
  set_list (synonym_candidates word).

Definition stop_words : list string :=
  [ "a"; "an"; "and"; "are"; "as"; "at"; "be"; "by"; "for"; "from";
    "has"; "he"; "in"; "is"; "it"; "its"; "of"; "on"; "that"; "the";
    "to"; "was"; "will"; "with"; "tbl"; "table"; "db"; "database" ].

Definition extract_meaningful_words (text : string) : list string :=
  if negb (truthy text) then []
  else
    let normalized := normalize_text text in
    let words := split normalized in
    filter (fun word => (2 <? String.length word) && negb (mem word stop_words)) words.

Definition prefixes_to_remove : list string := ["tbl_"; "tb_"; "table_"; "dbo."].
Definition suffixes_to_remove : list string := ["_id"; "_key"; "_ref"; "_tbl"; "_table"].

(** The [for prefix in ...: if ...: name = ...; break] loop. *)
Fixpoint remove_prefix (prefixes : list string) (name : string) : string :=
  match prefixes with
  | [] => name
  | prefix :: rest =>
      if startswith (lower name) prefix
      then slice_from (String.length prefix) name
      else remove_prefix rest name
  end.

Fixpoint remove_suffix (suffixes : list string) (name : string) : string :=
  match suffixes with
  | [] => name
  | suffix :: rest =>
      if endswith (lower name) suffix
      then slice_to_minus (String.length suffix) name
      else remove_suffix rest name
  end.

Definition convert_technical_to_natural (technical_name : string) : string :=
  if negb (truthy technical_name) then ""
  else
    let name := technical_name in
    let name := remove_prefix prefixes_to_remove name in
    let name := remove_suffix suffixes_to_remove name in
    let natural :=
      if contains "_" name then snake_case_to_words name
      else camel_case_to_words name in
    join " " (List.map capitalize (split natural)).

(** The list [search_terms] just before duplicates and blanks are removed. *)
Definition search_term_candidates `{SetOrder} (technical_name : string) : list string :=
  let search_terms := [technical_name] in
  let natural := convert_technical_to_natural technical_name in
  let search_terms :=
    if truthy natural && negb (String.eqb natural technical_name)
    then search_terms ++ [natural] else search_terms in
  let words := extract_meaningful_words natural in
  let search_terms := search_terms ++ words in
  fold_left (fun search_terms word => search_terms ++ generate_synonyms word)
    words search_terms.

Definition create_search_terms `{SetOrder} (technical_name : string) : list string :=
  filter (fun term => truthy (strip term))
    (set_list (search_term_candidates technical_name)).

Definition format_field_description
    (table_name column_name : string) (data_type : option string) : string :=
  let table_natural := convert_technical_to_natural table_name in
  let column_natural := convert_technical_to_natural column_name in
  let description := column_natural in
  let description :=
    if truthy table_natural && negb (String.eqb (lower table_natural) (lower column_natural))
    then (description ++ " from " ++ table_natural)%string else description in
  match data_type with
  | Some data_type =>
      if truthy data_type then
        let data_type_lower := lower data_type in
        let type_info :=
          if contains "int" data_type_lower || contains "numeric" data_type_lower
          then " (number)"
          else if contains "varchar" data_type_lower || contains "text" data_type_lower
          then " (text)"
          else if contains "date" data_type_lower || contains "time" data_type_lower
          then " (date/time)"
          else if contains "bit" data_type_lower || contains "bool" data_type_lower
          then " (yes/no)"
          else "" in
        (description ++ type_info)%string
      else description
  | None => description
  end.

(** *** Notions for the statements *)

(** The characters of a normalised text: lower-case letters, digits and
    the single spaces between words. *)
Definition plain (c : ascii) : bool := is_lower c || is_digit c.
Definition plain_or_space (c : ascii) : bool := plain c || Ascii.eqb c " ".

(** The words [normalize_text] joins. *)
Definition normal_words (text : string) : list string :=
  split (lower (map blank_special text)).

End Utils.

(** ** [querymancer/schema_extractor.py]: the descriptors *)

Module ColumnInfo.
Record t := {
  name : string;
  data_type : string;
  max_length : option Z;
  is_nullable : bool;
  default_value : option string;
  is_primary_key : bool;
  is_foreign_key : bool;
  referenced_table : option string;
  referenced_column : option string
}.
End ColumnInfo.

Module TableInfo.
Record t := {
  name : string;
  schema : string;
  columns : list ColumnInfo.t;
  primary_keys : list string;
  foreign_keys : list (PyDict.t string);
  row_count : option Z
}.
End TableInfo.

(** ** [querymancer/config.py]: one client's configuration *)

Module DatabaseConfig.
Record t := {
  client_name : string;
  server : string;
  database : string;
  username : string;
  password : string;
  port : Z;
  driver : string;
  trusted_connection : bool
}.
End DatabaseConfig.

(** ** [querymancer/mapping_generator.py] *)

Module MappingGenerator.
Import Py Utils.

(** The object: [self.client_key] and [self.config]. *)
Record t := {
  client_key : string;
  config : DatabaseConfig.t
}.

(** The dictionaries the generator returns, one record per shape. *)
Record ColumnMetadata := {
  cm_max_length : option Z;
  cm_is_nullable : bool;
  cm_default_value : option string;
  cm_is_primary_key : bool;
  cm_is_foreign_key : bool;
  cm_referenced_table : option string;
  cm_referenced_column : option string
}.

Record ColumnMapping := {
  c_technical_name : string;
  c_natural_name : string;
  c_description : string;
  c_data_type : string;
  c_search_terms : list string;
  c_synonyms : list string;
  c_category : string;
  c_examples : list string;
  c_metadata : ColumnMetadata
}.

Record TableMetadata := {
  tm_schema : string;
  tm_table_name : string;
  tm_column_count : nat;
  tm_has_primary_key : bool;
  tm_has_foreign_keys : bool
}.

Record TableMapping := {
  t_technical_name : string;
  t_natural_name : string;
  t_description : string;
  t_search_terms : list string;
  t_synonyms : list string;
  t_columns : PyDict.t ColumnMapping;
  t_primary_keys : list string;
  t_foreign_keys : list (PyDict.t string);
  t_row_count : option Z;
  t_metadata : TableMetadata
}.

Record ClientInfo := {
  ci_client_key : string;
  ci_client_name : string;
  ci_database : string;
  ci_generation_date : string;
  total_tables : nat;
  total_columns : nat
}.

Record MappingMetadata := {
  mm_version : string;
  mm_generator : string;
  mm_schema_extraction_date : string
}.

Definition SearchIndex := PyDict.t (list string).

Record DatabaseMapping := {
  client_info : ClientInfo;
  tables : PyDict.t TableMapping;
  search_index : SearchIndex;
  metadata : MappingMetadata
}.

Definition determine_column_category (column : ColumnInfo.t) : string :=
  let name_lower := lower (ColumnInfo.name column) in
  let type_lower := lower (ColumnInfo.data_type column) in
  if ColumnInfo.is_primary_key column then "identifier"
  else if ColumnInfo.is_foreign_key column then "reference"
  else if any_in ["date"; "time"; "created"; "modified"; "updated"] name_lower
          || any_in ["date"; "time"; "timestamp"] type_lower
  then "datetime"
  else if any_in ["int"; "decimal"; "numeric"; "float"; "money"] type_lower then
    if any_in ["price"; "cost"; "amount"; "value"; "total"] name_lower then "money"
    else if any_in ["quantity"; "count"; "number"] name_lower then "quantity"
    else "numeric"
  else if any_in ["bit"; "bool"] type_lower
          || any_in ["is_"; "has_"; "active"; "enabled"] name_lower
  then "boolean"
  else if any_in ["varchar"; "text"; "char"] type_lower then
    if any_in ["email"; "mail"] name_lower then "email"
    else if any_in ["phone"; "telephone"; "mobile"] name_lower then "phone"
    else if any_in ["address"; "street"; "city"; "state"; "zip"] name_lower then "address"
    else if any_in ["name"; "title"; "label"] name_lower then "name"
    else if any_in ["description"; "notes"; "comment"] name_lower then "description"
    else "text"
  else "general".

(** The fourteen category names. *)
Definition categories : list string :=
  [ "identifier"; "reference"; "datetime"; "money"; "quantity"; "numeric";
    "boolean"; "email"; "phone"; "address"; "name"; "description"; "text";
    "general" ].

(** One of the first four rules of the classifier applies: a key flag, a
    date or time name or type, or a numeric type. *)
Definition rules_1_to_4_apply (column : ColumnInfo.t) : bool :=
  let name_lower := lower (ColumnInfo.name column) in
  let type_lower := lower (ColumnInfo.data_type column) in
  ColumnInfo.is_primary_key column
  || ColumnInfo.is_foreign_key column
  || (any_in ["date"; "time"; "created"; "modified"; "updated"] name_lower
      || any_in ["date"; "time"; "timestamp"] type_lower)
  || any_in ["int"; "decimal"; "numeric"; "float"; "money"] type_lower.

(** The test of the fifth rule, as the code makes it: every name pattern
    is looked for anywhere in the name. *)
Definition boolean_test (column : ColumnInfo.t) : bool :=
  let name_lower := lower (ColumnInfo.name column) in
  let type_lower := lower (ColumnInfo.data_type column) in
  any_in ["bit"; "bool"] type_lower
  || any_in ["is_"; "has_"; "active"; "enabled"] name_lower.

(** The test of the fifth rule, in the words of the specification: the
    name starts with [is_] or [has_], or contains [active] or [enabled]. *)
Definition boolean_test_as_specified (column : ColumnInfo.t) : bool :=
  let name_lower := lower (ColumnInfo.name column) in
  let type_lower := lower (ColumnInfo.data_type column) in
  any_in ["bit"; "bool"] type_lower
  || startswith name_lower "is_" || startswith name_lower "has_"
  || any_in ["active"; "enabled"] name_lower.

Definition generate_column_examples `{SetOrder} (column : ColumnInfo.t) : list string :=
  let natural_name := convert_technical_to_natural (ColumnInfo.name column) in
  let name_lower := lower (ColumnInfo.name column) in
  let examples :=
    [ ("show me " ++ natural_name)%string;
      ("what is the " ++ natural_name)%string;
      ("find " ++ natural_name)%string ] in
  let examples :=
    if ColumnInfo.is_primary_key column then
      examples ++ [ ("find by " ++ natural_name)%string;
                    ("get record with " ++ natural_name)%string;
                    ("lookup " ++ natural_name)%string ]
    else if contains "date" name_lower || contains "time" name_lower then
      examples ++ [ ("when was " ++ natural_name)%string;
                    ("show " ++ natural_name ++ " after")%string;
                    ("filter by " ++ natural_name)%string ]
    else if any_in ["price"; "cost"; "amount"; "value"; "total"] name_lower then
      examples ++ [ ("how much is " ++ natural_name)%string;
                    ("total " ++ natural_name)%string;
                    ("average " ++ natural_name)%string;
                    (natural_name ++ " greater than")%string;
                    (natural_name ++ " less than")%string ]
    else if any_in ["quantity"; "count"; "number"] name_lower then
      examples ++ [ ("how many " ++ natural_name)%string;
                    ("count of " ++ natural_name)%string;
                    ("sum of " ++ natural_name)%string ]
    else if any_in ["name"; "title"] name_lower then
      examples ++ [ ("find by " ++ natural_name)%string;
                    ("search " ++ natural_name)%string;
                    (natural_name ++ " contains")%string;
                    (natural_name ++ " starts with")%string ]
    else if any_in ["status"; "state"; "type"; "category"] name_lower then
      examples ++ [ ("where " ++ natural_name ++ " is")%string;
                    ("filter by " ++ natural_name)%string;
                    ("group by " ++ natural_name)%string ]
    else examples in
  let synonyms := generate_synonyms (ColumnInfo.name column) in
  let examples :=
    fold_left
      (fun examples synonym =>
         if negb (String.eqb synonym (ColumnInfo.name column))
         then examples ++ [("show me " ++ synonym)%string] else examples)
      (firstn 3 synonyms) examples in
  firstn 10 examples.

Definition generate_column_mapping `{SetOrder}
    (table_info : TableInfo.t) (column : ColumnInfo.t) : ColumnMapping :=
  let natural_name := convert_technical_to_natural (ColumnInfo.name column) in
  let description :=
    format_field_description (TableInfo.name table_info) (ColumnInfo.name column)
      (Some (ColumnInfo.data_type column)) in
  let search_terms := create_search_terms (ColumnInfo.name column) in
  let category := determine_column_category column in
  let examples := generate_column_examples column in
  {| c_technical_name := ColumnInfo.name column;
     c_natural_name := natural_name;
     c_description := description;
     c_data_type := ColumnInfo.data_type column;
     c_search_terms := search_terms;
     c_synonyms := generate_synonyms (ColumnInfo.name column);
     c_category := category;
     c_examples := examples;
     c_metadata :=
       {| cm_max_length := ColumnInfo.max_length column;
          cm_is_nullable := ColumnInfo.is_nullable column;
          cm_default_value := ColumnInfo.default_value column;
          cm_is_primary_key := ColumnInfo.is_primary_key column;
          cm_is_foreign_key := ColumnInfo.is_foreign_key column;
          cm_referenced_table := ColumnInfo.referenced_table column;
          cm_referenced_column := ColumnInfo.referenced_column column |} |}.

Definition generate_table_mapping `{SetOrder} (table_info : TableInfo.t) : TableMapping :=
  let table_name :=
    (TableInfo.schema table_info ++ "." ++ TableInfo.name table_info)%string in
  let natural_name := convert_technical_to_natural (TableInfo.name table_info) in
  let search_terms := create_search_terms (TableInfo.name table_info) in
  let columns :=
    fold_left
      (fun columns column =>
         let column_mapping := generate_column_mapping table_info column in
         PyDict.set (ColumnInfo.name column) column_mapping columns)
      (TableInfo.columns table_info) PyDict.empty in
  {| t_technical_name := table_name;
     t_natural_name := natural_name;
     t_description := ("Data from the " ++ natural_name ++ " table")%string;
     t_search_terms := search_terms;
     t_synonyms := generate_synonyms (TableInfo.name table_info);
     t_columns := columns;
     t_primary_keys := TableInfo.primary_keys table_info;
     t_foreign_keys := TableInfo.foreign_keys table_info;
     t_row_count := TableInfo.row_count table_info;
     t_metadata :=
       {| tm_schema := TableInfo.schema table_info;
          tm_table_name := TableInfo.name table_info;
          tm_column_count := List.length (TableInfo.columns table_info);
          tm_has_primary_key := 0 <? List.length (TableInfo.primary_keys table_info);
          tm_has_foreign_keys := 0 <? List.length (TableInfo.foreign_keys table_info) |} |}.

(** [search_index[term]], the empty list standing for an absent key. *)
Definition bucket (term : string) (search_index : SearchIndex) : list string :=
  match PyDict.get term search_index with Some paths => paths | None => [] end.

(** [if term_lower not in search_index: search_index[term_lower] = []] *)
Definition ensure_bucket (term_lower : string) (search_index : SearchIndex) : SearchIndex :=
  if negb (PyDict.has term_lower search_index)
  then PyDict.set term_lower [] search_index else search_index.

(** [search_index[term_lower].append(path)] *)
Definition append_path (term_lower path : string) (search_index : SearchIndex) : SearchIndex :=
  PyDict.set term_lower (bucket term_lower search_index ++ [path]) search_index.

(** One round of the loop over the table's search terms. *)
Definition index_table_term (table_name : string)
    (search_index : SearchIndex) (term : string) : SearchIndex :=
  let term_lower := lower term in
  let search_index := ensure_bucket term_lower search_index in
  append_path term_lower table_name search_index.

(** One round of the loop over a column's search terms. *)
Definition index_column_term (column_path : string)
    (search_index : SearchIndex) (term : string) : SearchIndex :=
  let term_lower := lower term in
  let search_index := ensure_bucket term_lower search_index in
  if negb (mem column_path (bucket term_lower search_index))
  then append_path term_lower column_path search_index
  else search_index.

Definition index_column `{SetOrder} (table_name : string)
    (search_index : SearchIndex) (column : ColumnInfo.t) : SearchIndex :=
  let column_search_terms := create_search_terms (ColumnInfo.name column) in
  let column_path := (table_name ++ "." ++ ColumnInfo.name column)%string in
  fold_left (index_column_term column_path) column_search_terms search_index.

Definition index_table `{SetOrder}
    (search_index : SearchIndex) (entry : string * TableInfo.t) : SearchIndex :=
  let '(table_name, table_info) := entry in
  let table_search_terms := create_search_terms (TableInfo.name table_info) in
  let search_index :=
    fold_left (index_table_term table_name) table_search_terms search_index in
  fold_left (index_column table_name) (TableInfo.columns table_info) search_index.

Definition generate_search_index `{SetOrder}
    (schema_info : PyDict.t TableInfo.t) : SearchIndex :=
  fold_left index_table (PyDict.items schema_info) PyDict.empty.

(** [later] has every bucket of [earlier], with paths added at its end
    only. *)
Definition extends (earlier later : SearchIndex) : Prop :=
  forall term, exists added, bucket term later = bucket term earlier ++ added.

(** [sum(xs)] *)
Definition sum (xs : list nat) : nat := fold_left Nat.add xs 0.

(** The number of different column names of a table, and the number of
    its columns. *)
Definition distinct_column_names (table_info : TableInfo.t) : nat :=
  List.length (nodup string_dec (List.map ColumnInfo.name (TableInfo.columns table_info))).
Definition column_count (table_info : TableInfo.t) : nat :=
  List.length (TableInfo.columns table_info).

(** The result is [None] for the empty dictionary the method returns when
    it is given no table.  [generation_date] and [schema_extraction_date]
    are the two readings of the clock. *)
Definition generate_database_mapping `{SetOrder} (self : t)
    (generation_date schema_extraction_date : string)
    (schema_info : PyDict.t TableInfo.t) : option DatabaseMapping :=
  if PyDict.len schema_info =? 0 then None
  else
    let tables :=
      fold_left
        (fun tables entry =>
           let '(table_name, table_info) := entry in
           let table_mapping := generate_table_mapping table_info in
           PyDict.set table_name table_mapping tables)
        (PyDict.items schema_info) PyDict.empty in
    let search_index := generate_search_index schema_info in
    Some
      {| client_info :=
           {| ci_client_key := client_key self;
              ci_client_name := DatabaseConfig.client_name (config self);
              ci_database := DatabaseConfig.database (config self);
              ci_generation_date := generation_date;
              total_tables := PyDict.len tables;
              total_columns :=
                sum (List.map (fun table => PyDict.len (t_columns table))
                       (PyDict.values tables)) |};
         tables := tables;
         search_index := search_index;
         metadata :=
           {| mm_version := "1.0";
              mm_generator := "QueryMancer Mapping Generator";
              mm_schema_extraction_date := schema_extraction_date |} |}.

End MappingGenerator.

(** ** Calls whose argument may be [None] *)

Module Nullable.
Import Py.

(** What a call does: it returns a value or raises. *)
Inductive outcome (A : Type) : Type :=
| Returns (value : A)
| Raises (exception : string).
Arguments Returns {A} value.
Arguments Raises {A} exception.

(** [not text] for an argument that is [None] or a string. *)
Definition falsy (text : option string) : bool :=
  match text with
  | None => true
  | Some s => negb (truthy s)
  end.

(** The first use of the argument as a string: a method of [str] is called
    on it, which [None] does not have. *)
Definition as_str {A : Type} (text : option string) (body : string -> A) : outcome A :=
  match text with
  | None => Raises "AttributeError"
  | Some s => Returns (body s)
  end.

(** The guard [if not text: return ""] comes first. *)
Definition normalize_text (text : option string) : outcome string :=
  if falsy text then Returns "" else as_str text Utils.normalize_text.

Definition convert_technical_to_natural (technical_name : option string) : outcome string :=
  if falsy technical_name then Returns ""
  else as_str technical_name Utils.convert_technical_to_natural.

Definition extract_meaningful_words (text : option string) : outcome (list string) :=
  if falsy text then Returns [] else as_str text Utils.extract_meaningful_words.

(** No guard: [word.lower()] is evaluated first. *)
Definition generate_synonyms `{SetOrder} (word : option string) : outcome (list string) :=
  as_str word Utils.generate_synonyms.

(** No guard: [None] goes into the list, its natural name is [""] and has
    no word, and [term.strip()] is evaluated on it at the end. *)
Definition create_search_terms `{SetOrder} (technical_name : option string) : outcome (list string) :=
  as_str technical_name Utils.create_search_terms.

End Nullable.

(** ** [querymancer/config.py]: the configuration manager *)

Module ConfigManager.

(** The object: [self.config_file] and [self.databases]. *)
Record t := {
  config_file : string;
  databases : PyDict.t DatabaseConfig.t
}.

Definition get_database_config (self : t) (client_key : string) : option DatabaseConfig.t :=
  PyDict.get client_key (databases self).

Definition get_all_clients (self : t) : list string :=
  PyDict.keys (databases self).

Definition add_database_config (self : t) (client_key : string)
    (config : DatabaseConfig.t) : t :=
  {| config_file := config_file self;
     databases := PyDict.set client_key config (databases self) |}.

(** [str(n)] for an integer. *)
Definition str_of_int (n : Z) : string := NilEmpty.string_of_int (Z.to_int n).

Definition get_connection_string (self : t) (client_key : string) : option string :=
  match get_database_config self client_key with
  | None => None
  | Some config =>
      if DatabaseConfig.trusted_connection config then
        Some ("Driver={" ++ DatabaseConfig.driver config ++ "};"
              ++ "Server=" ++ DatabaseConfig.server config ++ ","
              ++ str_of_int (DatabaseConfig.port config) ++ ";"
              ++ "Database=" ++ DatabaseConfig.database config ++ ";"
              ++ "Trusted_Connection=yes;")%string
      else
        Some ("Driver={" ++ DatabaseConfig.driver config ++ "};"
              ++ "Server=" ++ DatabaseConfig.server config ++ ","
              ++ str_of_int (DatabaseConfig.port config) ++ ";"
              ++ "Database=" ++ DatabaseConfig.database config ++ ";"
              ++ "UID=" ++ DatabaseConfig.username config ++ ";"
              ++ "PWD=" ++ DatabaseConfig.password config ++ ";")%string
  end.

End ConfigManager.

(** ** [querymancer/schema_extractor.py]: from query results to descriptors *)

(** The database is what it answers to the four queries of the extractor.
    An answer is [None] when no connection can be made or the query
    raises, which the methods catch. *)

Module SchemaExtractor.
Import Py.

Record TableRow := {
  TABLE_SCHEMA : string;
  TABLE_NAME : string
}.

Record ColumnRow := {
  COLUMN_NAME : string;
  DATA_TYPE : string;
  CHARACTER_MAXIMUM_LENGTH : option Z;
  IS_NULLABLE : string;
  COLUMN_DEFAULT : option string;
  IS_PRIMARY_KEY : Z
}.

Record ForeignKeyRow := {
  FK_COLUMN_NAME : string;
  REFERENCED_TABLE_SCHEMA : string;
  REFERENCED_TABLE_NAME : string;
  REFERENCED_COLUMN_NAME : string;
  CONSTRAINT_NAME : string
}.

Record Database := {
  (** the base tables, of one schema when a filter is given *)
  tables_query : option string -> option (list TableRow);
  (** the columns of a table, by schema and table *)
  columns_query : string -> string -> option (list ColumnRow);
  (** the foreign keys of a table *)
  foreign_keys_query : string -> string -> option (list ForeignKeyRow);
  (** [fetchone()] of the row count: no row, or a sum that may be NULL *)
  row_count_query : string -> string -> option (option (option Z))
}.

(** [s.split('.', 1)] for an [s] that has a dot: the text before the first
    dot and the text after it. *)
Fixpoint before_dot (s : string) : string :=
  match s with
  | EmptyString => EmptyString
  | String c r => if Ascii.eqb c "." then EmptyString else String c (before_dot r)
  end.

Fixpoint after_dot (s : string) : string :=
  match s with
  | EmptyString => EmptyString
  | String c r => if Ascii.eqb c "." then r else after_dot r
  end.

(** [if '.' in table_name: schema, table = table_name.split('.', 1)
     else: schema = 'dbo'; table = table_name] *)
Definition parse_table_name (table_name : string) : string * string :=
  if contains "." table_name
  then (before_dot table_name, after_dot table_name)
  else ("dbo", table_name).

Definition get_tables (db : Database) (schema_filter : option string) : list string :=
  let filter :=
    match schema_filter with
    | Some s => if truthy s then Some s else None
    | None => None
    end in
  match tables_query db filter with
  | None => []
  | Some rows =>
      List.map (fun row => (TABLE_SCHEMA row ++ "." ++ TABLE_NAME row)%string) rows
  end.

Definition column_of_row (row : ColumnRow) : ColumnInfo.t :=
  {| ColumnInfo.name := COLUMN_NAME row;
     ColumnInfo.data_type := DATA_TYPE row;
     ColumnInfo.max_length := CHARACTER_MAXIMUM_LENGTH row;
     ColumnInfo.is_nullable := String.eqb (IS_NULLABLE row) "YES";
     ColumnInfo.default_value := COLUMN_DEFAULT row;
     ColumnInfo.is_primary_key := negb (Z.eqb (IS_PRIMARY_KEY row) 0);
     ColumnInfo.is_foreign_key := false;
     ColumnInfo.referenced_table := None;
     ColumnInfo.referenced_column := None |}.

Definition get_table_columns (db : Database) (table_name : string) : list ColumnInfo.t :=
  let '(schema, table) := parse_table_name table_name in
  match columns_query db schema table with
  | None => []
  | Some rows => List.map column_of_row rows
  end.

Definition fk_info_of_row (row : ForeignKeyRow) : PyDict.t string :=
  [ ("column", FK_COLUMN_NAME row);
    ("referenced_table",
     (REFERENCED_TABLE_SCHEMA row ++ "." ++ REFERENCED_TABLE_NAME row)%string);
    ("referenced_column", REFERENCED_COLUMN_NAME row);
    ("constraint_name", CONSTRAINT_NAME row) ].

Definition get_foreign_keys (db : Database) (table_name : string) : list (PyDict.t string) :=
  let '(schema, table) := parse_table_name table_name in
  match foreign_keys_query db schema table with
  | None => []
  | Some rows => List.map fk_info_of_row rows
  end.

(** [result.row_count if result and result.row_count else 0], and [None]
    when the query raises. *)
Definition get_table_row_count (db : Database) (table_name : string) : option Z :=
  let '(schema, table) := parse_table_name table_name in
  match row_count_query db schema table with
  | None => None
  | Some result =>
      match result with
      | Some (Some row_count) => Some (if Z.eqb row_count 0 then 0%Z else row_count)
      | _ => Some 0%Z
      end
  end.

(** The column after the three assignments of the inner loop. *)
Definition mark_column (column : ColumnInfo.t) (referenced_table referenced_column : string)
    : ColumnInfo.t :=
  {| ColumnInfo.name := ColumnInfo.name column;
     ColumnInfo.data_type := ColumnInfo.data_type column;
     ColumnInfo.max_length := ColumnInfo.max_length column;
     ColumnInfo.is_nullable := ColumnInfo.is_nullable column;
     ColumnInfo.default_value := ColumnInfo.default_value column;
     ColumnInfo.is_primary_key := ColumnInfo.is_primary_key column;
     ColumnInfo.is_foreign_key := true;
     ColumnInfo.referenced_table := Some referenced_table;
     ColumnInfo.referenced_column := Some referenced_column |}.

(** The inner loop [for column in columns: if column.name == fk['column']:
    ...; break], on the list of column objects.  [None] is a [KeyError]. *)
Fixpoint mark_foreign_key (fk : PyDict.t string) (columns : list ColumnInfo.t)
    : option (list ColumnInfo.t) :=
  match columns with
  | [] => Some []
  | column :: rest =>
      match PyDict.get "column" fk with
      | None => None
      | Some fk_column =>
          if String.eqb (ColumnInfo.name column) fk_column then
            match PyDict.get "referenced_table" fk with
            | None => None
            | Some referenced_table =>
                match PyDict.get "referenced_column" fk with
                | None => None
                | Some referenced_column =>
                    Some (mark_column column referenced_table referenced_column :: rest)
                end
            end
          else
            match mark_foreign_key fk rest with
            | None => None
            | Some rest' => Some (column :: rest')
            end
      end
  end.

(** The outer loop [for fk in foreign_keys]. *)
Definition mark_foreign_keys (foreign_keys : list (PyDict.t string))
    (columns : list ColumnInfo.t) : option (list ColumnInfo.t) :=
  fold_left
    (fun columns fk =>
       match columns with
       | None => None
       | Some columns => mark_foreign_key fk columns
       end)
    foreign_keys (Some columns).

(** [None] when the table has no column, or when an exception is caught. *)
Definition get_table_info (db : Database) (table_name : string) : option TableInfo.t :=
  let '(schema, table) := parse_table_name table_name in
  let columns := get_table_columns db table_name in
  match columns with
  | [] => None
  | _ :: _ =>
      let foreign_keys := get_foreign_keys db table_name in
      match mark_foreign_keys foreign_keys columns with
      | None => None
      | Some columns =>
          let primary_keys :=
            List.map ColumnInfo.name (filter ColumnInfo.is_primary_key columns) in
          let row_count := get_table_row_count db table_name in
          Some {| TableInfo.name := table;
                  TableInfo.schema := schema;
                  TableInfo.columns := columns;
                  TableInfo.primary_keys := primary_keys;
                  TableInfo.foreign_keys := foreign_keys;
                  TableInfo.row_count := row_count |}
      end
  end.

Definition extract_full_schema (db : Database) (schema_filter : option string)
    : PyDict.t TableInfo.t :=
  let tables := get_tables db schema_filter in
  fold_left
    (fun schema_info table_name =>
       match get_table_info db table_name with
       | Some table_info => PyDict.set table_name table_info schema_info
       | None => schema_info
       end)
    tables PyDict.empty.

End SchemaExtractor.

(** ** Further notions for the statements *)

Module Text.
Import Py.

(** [s] with every occurrence of the character [a] deleted. *)
Fixpoint remove_char (a : ascii) (s : string) : string :=
  match s with
  | EmptyString => EmptyString
  | String c r => if Ascii.eqb c a then remove_char a r else String c (remove_char a r)
  end.

(** No character of [s] is [a]. *)
Definition free_of (a : ascii) (s : string) : bool :=
  forallb (fun c => negb (Ascii.eqb c a)) s.

(** A letter or a digit, the class [a-zA-Z0-9]. *)
Definition is_alnum (c : ascii) : bool := is_lower c || is_upper c || is_digit c.

Definition no_underscore (c : ascii) : bool := negb (Ascii.eqb c "_").

(** An ASCII character: a code point below 128. *)
Definition is_ascii (c : ascii) : bool := nat_of_ascii c <? 128.

(** The text that [convert_technical_to_natural] cuts into words: the
    identifier without its prefix and suffix, segmented. *)
Definition segmented (technical_name : string) : string :=
  let name := Utils.remove_suffix Utils.suffixes_to_remove
                (Utils.remove_prefix Utils.prefixes_to_remove technical_name) in
  if contains "_" name then Utils.snake_case_to_words name
  else Utils.camel_case_to_words name.

End Text.

Module Rules.
Import Py.

(** The tests of the classifier, as the rules name them: a pattern of the
    list occurs in the lower-case name, or in the lower-case type. *)
Definition name_has (patterns : list string) (column : ColumnInfo.t) : bool :=
  any_in patterns (lower (ColumnInfo.name column)).

Definition type_has (patterns : list string) (column : ColumnInfo.t) : bool :=
  any_in patterns (lower (ColumnInfo.data_type column)).

(** Rule 3: a date or time name, or a date or time type. *)
Definition datetime_rule (column : ColumnInfo.t) : bool :=
  name_has ["date"; "time"; "created"; "modified"; "updated"] column
  || type_has ["date"; "time"; "timestamp"] column.

(** Rule 4: a numeric type. *)
Definition numeric_rule (column : ColumnInfo.t) : bool :=
  type_has ["int"; "decimal"; "numeric"; "float"; "money"] column.

(** Rule 5: a boolean type or a boolean name. *)
Definition boolean_rule (column : ColumnInfo.t) : bool :=
  type_has ["bit"; "bool"] column
  || name_has ["is_"; "has_"; "active"; "enabled"] column.

(** Rule 6: a character type. *)
Definition text_rule (column : ColumnInfo.t) : bool :=
  type_has ["varchar"; "text"; "char"] column.

(** The category of rule 4, by the name. *)
Definition numeric_category (column : ColumnInfo.t) : string :=
  if name_has ["price"; "cost"; "amount"; "value"; "total"] column then "money"
  else if name_has ["quantity"; "count"; "number"] column then "quantity"
  else "numeric".

(** The category of rule 6, by the name. *)
Definition text_category (column : ColumnInfo.t) : string :=
  if name_has ["email"; "mail"] column then "email"
  else if name_has ["phone"; "telephone"; "mobile"] column then "phone"
  else if name_has ["address"; "street"; "city"; "state"; "zip"] column then "address"
  else if name_has ["name"; "title"; "label"] column then "name"
  else if name_has ["description"; "notes"; "comment"] column then "description"
  else "text".

(** A column with given flags, for the examples of the order. *)
Definition flagged_column (name data_type : string)
    (is_primary_key is_foreign_key : bool) : ColumnInfo.t :=
  {| ColumnInfo.name := name;
     ColumnInfo.data_type := data_type;
     ColumnInfo.max_length := None;
     ColumnInfo.is_nullable := false;
     ColumnInfo.default_value := None;
     ColumnInfo.is_primary_key := is_primary_key;
     ColumnInfo.is_foreign_key := is_foreign_key;
     ColumnInfo.referenced_table := if is_foreign_key then Some "dbo.Customers" else None;
     ColumnInfo.referenced_column := if is_foreign_key then Some "CustomerID" else None |}.

End Rules.

Module Index.

(** The paths [table_name.column] of the columns of a schema. *)
Definition column_paths (schema_info : PyDict.t TableInfo.t) : list string :=
  flat_map
    (fun entry : string * TableInfo.t =>
       List.map (fun column => (fst entry ++ "." ++ ColumnInfo.name column)%string)
         (TableInfo.columns (snd entry)))
    (PyDict.items schema_info).

End Index.

(** ** The schemas of the scenarios *)

Module Fixtures.

(** A column as the extractor builds it: no length, not nullable, no
    default, no foreign key. *)
Definition column (name data_type : string) (is_primary_key : bool) : ColumnInfo.t :=
  {| ColumnInfo.name := name;
     ColumnInfo.data_type := data_type;
     ColumnInfo.max_length := None;
     ColumnInfo.is_nullable := false;
     ColumnInfo.default_value := None;
     ColumnInfo.is_primary_key := is_primary_key;
     ColumnInfo.is_foreign_key := false;
     ColumnInfo.referenced_table := None;
     ColumnInfo.referenced_column := None |}.

Definition table (name : string) (columns : list ColumnInfo.t) : TableInfo.t :=
  {| TableInfo.name := name;
     TableInfo.schema := "dbo";
     TableInfo.columns := columns;
     TableInfo.primary_keys :=
       List.map ColumnInfo.name (filter ColumnInfo.is_primary_key columns);
     TableInfo.foreign_keys := [];
     TableInfo.row_count := None |}.

(** [dbo.Customers] with [CustomerID (int, PK)] and [CustomerName (varchar)]. *)
Definition customers : TableInfo.t :=
  table "Customers" [column "CustomerID" "int" true; column "CustomerName" "varchar" false].

Definition customers_schema : PyDict.t TableInfo.t := [("dbo.Customers", customers)].

(** [UnitPrice (decimal)] of [Products]. *)
Definition unit_price : ColumnInfo.t := column "UnitPrice" "decimal" false.

(** A primary key named [CreatedDate]. *)
Definition created_date_key : ColumnInfo.t := column "CreatedDate" "datetime" true.

(** A text column whose name has [is_] inside, not in front. *)
Definition diagnosis_code : ColumnInfo.t := column "diagnosis_code" "varchar" false.

Definition generator : MappingGenerator.t :=
  {| MappingGenerator.client_key := "client_a";
     MappingGenerator.config :=
       {| DatabaseConfig.client_name := "Client A";
          DatabaseConfig.server := "localhost";
          DatabaseConfig.database := "ClientA_DB";
          DatabaseConfig.username := "sa";
          DatabaseConfig.password := "password";
          DatabaseConfig.port := 1433%Z;
          DatabaseConfig.driver := "ODBC Driver 17 for SQL Server";
          DatabaseConfig.trusted_connection := false |} |}.

End Fixtures.

Module ExtractorNotions.

(** A column with the three foreign-key fields reset. *)
Definition without_fk (column : ColumnInfo.t) : ColumnInfo.t :=
  {| ColumnInfo.name := ColumnInfo.name column;
     ColumnInfo.data_type := ColumnInfo.data_type column;
     ColumnInfo.max_length := ColumnInfo.max_length column;
     ColumnInfo.is_nullable := ColumnInfo.is_nullable column;
     ColumnInfo.default_value := ColumnInfo.default_value column;
     ColumnInfo.is_primary_key := ColumnInfo.is_primary_key column;
     ColumnInfo.is_foreign_key := false;
     ColumnInfo.referenced_table := None;
     ColumnInfo.referenced_column := None |}.

(** The column carries the reference of the foreign-key row. *)
Definition refers_as (column : ColumnInfo.t) (row : SchemaExtractor.ForeignKeyRow) : Prop :=
  SchemaExtractor.FK_COLUMN_NAME row = ColumnInfo.name column
  /\ ColumnInfo.referenced_table column
     = Some (SchemaExtractor.REFERENCED_TABLE_SCHEMA row ++ "."
             ++ SchemaExtractor.REFERENCED_TABLE_NAME row)%string
  /\ ColumnInfo.referenced_column column
     = Some (SchemaExtractor.REFERENCED_COLUMN_NAME row).

(** A column flagged as foreign key carries the reference of one of the
    rows; the invariant of the data model. *)
Definition fk_consistent (rows : list SchemaExtractor.ForeignKeyRow)
    (column : ColumnInfo.t) : Prop :=
  ColumnInfo.is_foreign_key column = true ->
  exists row, In row rows /\ refers_as column row.

(** The columns after the inner loop for the row [row]: the first column
    of the row's name gets the flag and the reference. *)
Fixpoint mark_first (row : SchemaExtractor.ForeignKeyRow) (columns : list ColumnInfo.t)
    : list ColumnInfo.t :=
  match columns with
  | [] => []
  | column :: rest =>
      if String.eqb (ColumnInfo.name column) (SchemaExtractor.FK_COLUMN_NAME row)
      then SchemaExtractor.mark_column column
             (SchemaExtractor.REFERENCED_TABLE_SCHEMA row ++ "."
              ++ SchemaExtractor.REFERENCED_TABLE_NAME row)%string
             (SchemaExtractor.REFERENCED_COLUMN_NAME row) :: rest
      else column :: mark_first row rest
  end.

Definition mark_all (rows : list SchemaExtractor.ForeignKeyRow)
    (columns : list ColumnInfo.t) : list ColumnInfo.t :=
  fold_left (fun columns row => mark_first row columns) rows columns.

(** The foreign-key rows behind [get_foreign_keys]. *)
Definition foreign_key_rows (db : SchemaExtractor.Database) (table_name : string)
    : list SchemaExtractor.ForeignKeyRow :=
  match SchemaExtractor.foreign_keys_query db
          (fst (SchemaExtractor.parse_table_name table_name))
          (snd (SchemaExtractor.parse_table_name table_name)) with
  | None => []
  | Some rows => rows
  end.

(** One round of the loop of [extract_full_schema] over the table names. *)
Definition keep_table (db : SchemaExtractor.Database)
    (schema_info : PyDict.t TableInfo.t) (table_name : string) : PyDict.t TableInfo.t :=
  match SchemaExtractor.get_table_info db table_name with
  | Some table_info => PyDict.set table_name table_info schema_info
  | None => schema_info
  end.

(** Some column of the name has the foreign-key flag. *)
Definition flagged (name : string) (columns : list ColumnInfo.t) : Prop :=
  exists column,
    In column columns /\ ColumnInfo.name column = name
    /\ ColumnInfo.is_foreign_key column = true.

End ExtractorNotions.

Module ExtractorFixtures.
Import SchemaExtractor.

Definition customer_id_row : ColumnRow :=
  {| COLUMN_NAME := "CustomerID"; DATA_TYPE := "int";
     CHARACTER_MAXIMUM_LENGTH := None; IS_NULLABLE := "NO";
     COLUMN_DEFAULT := None; IS_PRIMARY_KEY := 0%Z |}.

Definition order_id_row : ColumnRow :=
  {| COLUMN_NAME := "OrderID"; DATA_TYPE := "int";
     CHARACTER_MAXIMUM_LENGTH := None; IS_NULLABLE := "NO";
     COLUMN_DEFAULT := None; IS_PRIMARY_KEY := 1%Z |}.

Definition customer_fk_row : ForeignKeyRow :=
  {| FK_COLUMN_NAME := "CustomerID";
     REFERENCED_TABLE_SCHEMA := "dbo";
     REFERENCED_TABLE_NAME := "Customers";
     REFERENCED_COLUMN_NAME := "CustomerID";
     CONSTRAINT_NAME := "FK_Orders_Customers" |}.

(** A database with the one table [dbo.Orders]: its key [OrderID] and the
    foreign key [CustomerID]. *)
Definition orders_db : Database :=
  {| tables_query := fun _ => Some [{| TABLE_SCHEMA := "dbo"; TABLE_NAME := "Orders" |}];
     columns_query := fun schema table =>
       if String.eqb schema "dbo" && String.eqb table "Orders"
       then Some [order_id_row; customer_id_row] else Some [];
     foreign_keys_query := fun schema table =>
       if String.eqb schema "dbo" && String.eqb table "Orders"
       then Some [customer_fk_row] else Some [];
     row_count_query := fun _ _ => Some (Some (Some 42%Z)) |}.

Definition two_clients : ConfigManager.t :=
  {| ConfigManager.config_file := "client_configs.json";
     ConfigManager.databases :=
       [ ("client_a", MappingGenerator.config Fixtures.generator) ] |}.

End ExtractorFixtures.

(** ** An admissible order, for evaluation *)

#[global] Instance default_order : SetOrder.
Proof.
  refine {| set_list := last_occurrences |}.
  - intro xs. apply NoDup_nodup.
  - intros xs x. apply nodup_In.
Defined.

(** * Properties *)

(** ** Characters and strings *)

Module PyFacts.
Import Py.

Ltac by_cases_on_char c :=
  destruct c as [[] [] [] [] [] [] [] []]; vm_compute; intuition congruence.

Lemma truthy_true (s : string) : truthy s = true <-> s <> "".
Proof. destruct s; simpl; split; congruence. Qed.

Lemma truthy_false (s : string) : truthy s = false <-> s = "".
Proof. destruct s; simpl; split; congruence. Qed.

Lemma append_empty_r (s : string) : (s ++ "")%string = s.
Proof. induction s; simpl; congruence. Qed.

Lemma append_assoc (a b c : string) :
  ((a ++ b) ++ c)%string = (a ++ (b ++ c))%string.
Proof. induction a; simpl; congruence. Qed.

Lemma forallb_append (p : ascii -> bool) (a b : string) :
  forallb p (a ++ b) = forallb p a && forallb p b.
Proof.
  induction a as [|c a IH]; simpl; [reflexivity|].
  rewrite IH. apply andb_assoc.
Qed.

Lemma forallb_impl (p q : ascii -> bool) (s : string) :
  (forall c, p c = true -> q c = true) ->
  forallb p s = true -> forallb q s = true.
Proof.
  intros Hpq. induction s as [|c s IH]; simpl; [reflexivity|].
  rewrite !andb_true_iff. intros [Hc Hs]. auto.
Qed.

Lemma map_fixed (f : ascii -> ascii) (p : ascii -> bool) (s : string) :
  (forall c, p c = true -> f c = c) ->
  forallb p s = true -> map f s = s.
Proof.
  intros Hf. induction s as [|c s IH]; simpl; [reflexivity|].
  rewrite andb_true_iff. intros [Hc Hs]. rewrite Hf, IH; auto.
Qed.

Lemma forallb_map (f : ascii -> ascii) (p : ascii -> bool) (s : string) :
  (forall c, p (f c) = true) -> forallb p (map f s) = true.
Proof.
  intros Hf. induction s as [|c s IH]; simpl; [reflexivity|].
  rewrite Hf, IH. reflexivity.
Qed.

(** *** [split] and [join] *)

Lemma split_from_words (p : ascii -> bool) (s w : string) :
  forallb (fun c => is_space c || p c) s = true ->
  forallb p w = true ->
  Forall (is_word p) (split_from w s).
Proof.
  revert w.
  induction s as [|c s IH]; intros w Hs Hw; simpl in *.
  - destruct (truthy w) eqn:Tw; constructor; [split; assumption | constructor].
  - apply andb_true_iff in Hs as [Hc Hs].
    destruct (is_space c) eqn:Sc.
    + destruct (truthy w) eqn:Tw.
      * constructor; [split; assumption | apply IH; auto].
      * apply IH; auto.
    + apply IH; [assumption|].
      rewrite forallb_append, Hw. simpl in *. rewrite Hc. reflexivity.
Qed.

Lemma split_words (p : ascii -> bool) (s : string) :
  forallb (fun c => is_space c || p c) s = true ->
  Forall (is_word p) (split s).
Proof. intros Hs. apply split_from_words; [assumption | reflexivity]. Qed.

(** Reading a blank-free run [u] extends the word being read. *)
Lemma split_from_run (u w rest : string) :
  forallb not_space u = true ->
  split_from w (u ++ rest) = split_from (w ++ u) rest.
Proof.
  revert w. induction u as [|c u IH]; intros w Hu; simpl.
  - rewrite append_empty_r. reflexivity.
  - simpl in Hu. apply andb_true_iff in Hu as [Hc Hu].
    unfold not_space in Hc. apply negb_true_iff in Hc. rewrite Hc.
    rewrite IH by assumption. rewrite append_assoc. reflexivity.
Qed.

Lemma split_join (ws : list string) :
  Forall (is_word not_space) ws ->
  split (join " " ws) = ws.
Proof.
  unfold split, join.
  induction 1 as [|w ws [Tw Hw] Hws IH]; [reflexivity|].
  destruct ws as [|w' ws'].
  - simpl. rewrite <- (append_empty_r w) at 1.
    rewrite split_from_run by assumption. simpl. rewrite Tw. reflexivity.
  - change (String.concat " " (w :: w' :: ws'))
      with (w ++ String " " (String.concat " " (w' :: ws')))%string.
    rewrite split_from_run by assumption.
    change ("" ++ w)%string with w.
    cbn [split_from]. change (is_space " ") with true. cbv iota.
    rewrite Tw, IH. reflexivity.
Qed.

Lemma forallb_join (p : ascii -> bool) (ws : list string) :
  p " "%char = true ->
  Forall (fun w => forallb p w = true) ws ->
  forallb p (join " " ws) = true.
Proof.
  intros Hsp. unfold join.
  induction 1 as [|w ws Hw Hws IH]; [reflexivity|].
  destruct ws as [|w' ws']; [assumption|].
  change (String.concat " " (w :: w' :: ws'))
    with (w ++ String " " (String.concat " " (w' :: ws')))%string.
  rewrite forallb_append, Hw. cbn [forallb]. rewrite Hsp, IH. reflexivity.
Qed.

End PyFacts.

(** ** The text functions *)

Module UtilsFacts.
Import Py PyFacts Utils.

(** *** [normalize_text] *)

Lemma lower_blank_special_plain (c : ascii) :
  is_space (to_lower (blank_special c)) = false ->
  plain (to_lower (blank_special c)) = true.
Proof. by_cases_on_char c. Qed.

Lemma plain_not_space (c : ascii) : plain c = true -> not_space c = true.
Proof. by_cases_on_char c. Qed.

Lemma blank_special_fixed (c : ascii) :
  plain_or_space c = true -> blank_special c = c.
Proof. by_cases_on_char c. Qed.

Lemma to_lower_fixed (c : ascii) : plain_or_space c = true -> to_lower c = c.
Proof. by_cases_on_char c. Qed.

Lemma map_map (f g : ascii -> ascii) (s : string) :
  map f (map g s) = map (fun c => f (g c)) s.
Proof. induction s; simpl; congruence. Qed.

Lemma normal_words_plain (text : string) :
  Forall (is_word plain) (normal_words text).
Proof.
  unfold normal_words, lower. rewrite map_map.
  apply split_words, forallb_map. intro c.
  destruct (is_space (to_lower (blank_special c))) eqn:Sc; [reflexivity|].
  simpl. apply lower_blank_special_plain, Sc.
Qed.

Lemma normalize_text_fixed (ws : list string) :
  Forall (is_word plain) ws ->
  normalize_text (join " " ws) = join " " ws.
Proof.
  intros Hws. unfold normalize_text.
  destruct (truthy (join " " ws)) eqn:T; simpl.
  2:{ apply truthy_false in T. congruence. }
  assert (P : forallb plain_or_space (join " " ws) = true).
  { apply forallb_join; [reflexivity|].
    eapply Forall_impl; [|exact Hws]. intros w [_ Hw].
    eapply forallb_impl; [|exact Hw].
    intros c Hc. unfold plain_or_space. rewrite Hc. reflexivity. }
  rewrite (map_fixed blank_special plain_or_space) by (auto using blank_special_fixed).
  unfold lower.
  rewrite (map_fixed to_lower plain_or_space) by (auto using to_lower_fixed).
  rewrite split_join; [reflexivity|].
  eapply Forall_impl; [|exact Hws]. intros w [Tw Hw]. split; [assumption|].
  eapply forallb_impl; [|exact Hw]. apply plain_not_space.
Qed.

(** C9.  [normalize_text] is idempotent: normalising a normalised text
    changes nothing, for every text. *)
Theorem normalize_text_idempotent (s : string) :
  normalize_text (normalize_text s) = normalize_text s.
Proof.
  unfold normalize_text at 2 3.
  destruct (truthy s); simpl; [|reflexivity].
  apply normalize_text_fixed, normal_words_plain.
Qed.

(** *** [convert_technical_to_natural] *)

(** The helper keeps a run of capitals, as its comment says; it is
    [capitalize] that lower-cases it afterwards. *)
Lemma camel_case_to_words_CustomerID :
  camel_case_to_words "CustomerID" = "Customer ID"
  /\ camel_case_to_words "XMLHttpRequest" = "XML Http Request"
  /\ capitalize "ID" = "Id".
Proof. repeat split; reflexivity. Qed.

(** C2.  The natural names of the five fixtures.  Four are the ones the
    specification gives; ["CustomerID"] becomes ["Customer Id"], because
    [capitalize] lower-cases every character after the first, where the
    specification (and the sample mapping of the generator) has
    ["Customer ID"]. *)
Theorem convert_technical_to_natural_fixtures :
  convert_technical_to_natural "tbl_Customer_Orders" = "Customer Orders"
  /\ convert_technical_to_natural "CustomerID" = "Customer Id"
  /\ convert_technical_to_natural "CustomerID" <> "Customer ID"
  /\ convert_technical_to_natural "OrderDate" = "Order Date"
  /\ convert_technical_to_natural "IsActive" = "Is Active"
  /\ convert_technical_to_natural "user_profile_settings" = "User Profile Settings".
Proof. vm_compute. repeat split; discriminate. Qed.

Lemma to_lower_inv (c : ascii) :
  if is_lower (to_lower c)
  then c = to_lower c \/ c = to_upper (to_lower c)
  else c = to_lower c.
Proof. destruct c as [[] [] [] [] [] [] [] []]; vm_compute; auto. Qed.

Lemma lower_spellings (s : string) : In s (spellings (lower s)).
Proof.
  induction s as [|c s IH]; simpl; [auto|].
  apply in_flat_map. exists s. split; [assumption|].
  pose proof (to_lower_inv c) as Hc.
  destruct (is_lower (to_lower c)); simpl.
  - destruct Hc as [Hc|Hc]; [left | right; left]; congruence.
  - left. congruence.
Qed.

(** C10.  An identifier that is exactly one of the technical suffixes, in
    any mix of upper and lower case, has the empty natural name: the
    suffix is stripped and nothing falls back to the identifier. *)
Theorem convert_technical_to_natural_bare_suffix (identifier : string) :
  In (lower identifier) suffixes_to_remove ->
  convert_technical_to_natural identifier = "".
Proof.
  intros Hsuffix.
  pose proof (lower_spellings identifier) as Hsp.
  simpl in Hsuffix.
  repeat (destruct Hsuffix as [Hsuffix|Hsuffix];
          [rewrite <- Hsuffix in Hsp; vm_compute in Hsp;
           repeat (destruct Hsp as [<-|Hsp]; [reflexivity|]); contradiction|]).
  contradiction.
Qed.

Lemma convert_technical_to_natural_bare_suffix_witness :
  convert_technical_to_natural "_id" = "".
Proof.
  apply convert_technical_to_natural_bare_suffix.
  simpl. left. reflexivity.
Defined.

(** *** [create_search_terms] and [generate_synonyms] *)

Lemma fold_left_app_In {A : Type} (f : A -> list string) (ws : list A)
    (init : list string) (x : string) :
  In x init -> In x (fold_left (fun acc w => acc ++ f w) ws init).
Proof.
  revert init. induction ws as [|w ws IH]; intros init Hx; simpl; [assumption|].
  apply IH, in_or_app. left. assumption.
Qed.

Lemma filter_none {A : Type} (p : A -> bool) (xs : list A) :
  (forall x, In x xs -> p x = false) -> filter p xs = [].
Proof.
  induction xs as [|x xs IH]; intros Hp; simpl; [reflexivity|].
  rewrite (Hp x) by (left; reflexivity).
  apply IH. intros y Hy. apply Hp. right. assumption.
Qed.

Section AnyOrder.
Context `{SetOrder}.

Lemma search_term_candidates_original (technical_name : string) :
  In technical_name (search_term_candidates technical_name).
Proof.
  unfold search_term_candidates.
  apply fold_left_app_In, in_or_app. left.
  destruct (_ && _); simpl; auto.
Qed.

Lemma search_term_candidates_word (technical_name word : string) :
  In word (extract_meaningful_words (convert_technical_to_natural technical_name)) ->
  In word (search_term_candidates technical_name).
Proof.
  intros Hword. unfold search_term_candidates.
  apply fold_left_app_In, in_or_app. right. assumption.
Qed.

Lemma create_search_terms_In (technical_name term : string) :
  In term (create_search_terms technical_name)
  <-> In term (search_term_candidates technical_name)
      /\ truthy (strip term) = true.
Proof.
  unfold create_search_terms. rewrite filter_In.
  pose proof (set_list_In (search_term_candidates technical_name) term).
  tauto.
Qed.

(** C7.  The search terms of an identifier that has a character other
    than a blank contain the identifier itself (so also up to case); the
    search terms of every identifier are pairwise distinct, and none of
    them is empty or made of blanks only. *)
Theorem create_search_terms_members (technical_name : string) :
  (truthy (strip technical_name) = true ->
   In technical_name (create_search_terms technical_name))
  /\ NoDup (create_search_terms technical_name)
  /\ (forall term, In term (create_search_terms technical_name) ->
        truthy (strip term) = true)
  /\ ~ In "" (create_search_terms technical_name).
Proof.
  unfold create_search_terms. repeat split.
  - intros Hname. apply filter_In. split; [|assumption].
    apply set_list_In, search_term_candidates_original.
  - apply NoDup_filter, set_list_NoDup.
  - intros term Hterm. apply filter_In in Hterm. tauto.
  - intros Hempty. apply filter_In in Hempty. simpl in Hempty.
    destruct Hempty; discriminate.
Qed.

Lemma no_search_terms_of_empty : create_search_terms "" = [].
Proof.
  unfold create_search_terms. apply filter_none.
  intros x Hx. apply (proj1 (set_list_In _ _)) in Hx.
  change (search_term_candidates "") with [""] in Hx. simpl in Hx.
  destruct Hx as [<-|[]]. reflexivity.
Qed.

Lemma empty_word_among_synonyms : In "" (generate_synonyms "").
Proof. unfold generate_synonyms. apply set_list_In. vm_compute. auto. Qed.

(** C4.  On an argument that is [None] or the empty string,
    [normalize_text] and [convert_technical_to_natural] return the empty
    string and [extract_meaningful_words] returns the empty list.  On the
    empty string [create_search_terms] returns the empty list, and
    [generate_synonyms] returns a list that holds the empty string
    itself, so is not empty. *)
Theorem text_functions_on_empty_input (text : option string) :
  Nullable.falsy text = true ->
  Nullable.normalize_text text = Nullable.Returns ""
  /\ Nullable.convert_technical_to_natural text = Nullable.Returns ""
  /\ Nullable.extract_meaningful_words text = Nullable.Returns []
  /\ Nullable.create_search_terms (Some "") = Nullable.Returns []
  /\ (exists synonyms,
        Nullable.generate_synonyms (Some "") = Nullable.Returns synonyms
        /\ In "" synonyms /\ synonyms <> []).
Proof.
  intros Hfalsy.
  assert (Hcases : text = None \/ text = Some "").
  { destruct text as [[|c s]|]; simpl in Hfalsy; auto; discriminate. }
  repeat split.
  - destruct Hcases as [->| ->]; reflexivity.
  - destruct Hcases as [->| ->]; reflexivity.
  - destruct Hcases as [->| ->]; reflexivity.
  - simpl. rewrite no_search_terms_of_empty. reflexivity.
  - exists (generate_synonyms ""). repeat split.
    + apply empty_word_among_synonyms.
    + intro Hnil. pose proof empty_word_among_synonyms as Hin.
      rewrite Hnil in Hin. contradiction.
Qed.

End AnyOrder.

Lemma create_search_terms_members_witness :
  In "CustomerID" (create_search_terms "CustomerID").
Proof.
  apply (create_search_terms_members "CustomerID"). reflexivity.
Defined.

Lemma text_functions_on_empty_input_witness :
  Nullable.normalize_text None = Nullable.Returns "".
Proof.
  apply (text_functions_on_empty_input None). reflexivity.
Defined.

(** The claim of C7 fails at the empty identifier: its search terms are
    none, so no term matches it, whatever the case. *)
Lemma create_search_terms_empty_misses_original :
  ~ exists term, In term (create_search_terms "")
                 /\ lower term = lower "".
Proof. rewrite no_search_terms_of_empty. intros [term [[] _]]. Qed.

(** The claim of C4 fails at [generate_synonyms]: the empty string is a
    substring of every key of the synonym table, so every synonym of the
    table is returned with it. *)
Lemma generate_synonyms_empty_not_empty :
  Nullable.generate_synonyms (Some "") <> Nullable.Returns []
  /\ List.length (generate_synonyms "") = 52.
Proof. split; [discriminate | reflexivity]. Qed.

End UtilsFacts.

(** ** Dictionaries *)

Module PyDictFacts.
Import PyDict.

Section Dict.
Context {V : Type}.
Implicit Types (d : PyDict.t V) (k : string) (v : V).

Lemma get_set_eq k v d : get k (set k v d) = Some v.
Proof.
  induction d as [|[k' v'] d IH]; simpl.
  - rewrite String.eqb_refl. reflexivity.
  - destruct (String.eqb k k') eqn:E; simpl; rewrite E; [reflexivity | assumption].
Qed.

Lemma get_set_ne k k' v d : k <> k' -> get k' (set k v d) = get k' d.
Proof.
  intros Hne. induction d as [|[k0 v0] d IH]; simpl.
  - destruct (String.eqb_spec k' k); [congruence | reflexivity].
  - destruct (String.eqb_spec k k0) as [->|Hk]; simpl.
    + destruct (String.eqb_spec k' k0); [congruence | reflexivity].
    + destruct (String.eqb k' k0); [reflexivity | assumption].
Qed.

Lemma get_None k d : get k d = None <-> ~ In k (keys d).
Proof.
  induction d as [|[k' v'] d IH]; simpl; [tauto|].
  destruct (String.eqb_spec k k') as [->|Hk].
  - split; [discriminate | intros Hn; exfalso; apply Hn; auto].
  - rewrite IH. split; [intros Hn [Heq|Hin]; [congruence | auto] | tauto].
Qed.

Lemma has_In k d : has k d = true <-> In k (keys d).
Proof.
  unfold has. pose proof (get_None k d) as Hn.
  destruct (get k d); split; intros Hk; try reflexivity; try discriminate.
  - destruct (in_dec string_dec k (keys d)) as [Hin|Hout]; [assumption|].
    apply Hn in Hout. discriminate.
  - exfalso. apply Hn; [reflexivity | assumption].
Qed.

(** Setting a new key appends the entry. *)
Lemma set_new k v d : ~ In k (keys d) -> set k v d = d ++ [(k, v)].
Proof.
  induction d as [|[k' v'] d IH]; simpl; intros Hk; [reflexivity|].
  destruct (String.eqb_spec k k') as [->|Hne]; [exfalso; auto|].
  rewrite IH; [reflexivity | tauto].
Qed.

(** Setting a key changes no key but, when it is new, adds it last. *)
Lemma keys_set k v d :
  keys (set k v d) = if has k d then keys d else keys d ++ [k].
Proof.
  destruct (has k d) eqn:Hk.
  - apply has_In in Hk. induction d as [|[k' v'] d IH]; simpl in *; [tauto|].
    destruct (String.eqb_spec k k') as [->|Hne]; simpl; [reflexivity|].
    rewrite IH; [reflexivity|]. destruct Hk; [congruence | assumption].
  - assert (Hout : ~ In k (keys d)).
    { intro Hin. apply has_In in Hin. congruence. }
    rewrite set_new by assumption. unfold keys. rewrite map_app. reflexivity.
Qed.

Lemma wf_set k v d : wf d -> wf (set k v d).
Proof.
  unfold wf. intros Hd. rewrite keys_set.
  destruct (has k d) eqn:Hk; [assumption|].
  apply NoDup_app; [assumption | repeat constructor; simpl; tauto |].
  intros x Hx [<-|[]]. apply has_In in Hx. congruence.
Qed.

Lemma In_keys_set k k' v d :
  In k' (keys (set k v d)) <-> k = k' \/ In k' (keys d).
Proof.
  rewrite keys_set. destruct (has k d) eqn:Hk.
  - apply has_In in Hk. split; [tauto | intros [<-|Hin]; assumption].
  - rewrite in_app_iff. simpl. tauto.
Qed.

Lemma len_keys d : len d = List.length (keys d).
Proof. unfold len, keys. rewrite length_map. reflexivity. Qed.

End Dict.

Section Build.
Context {A V : Type} (key : A -> string) (value : A -> V).

Lemma build_wf xs d : wf d -> wf (build key value xs d).
Proof.
  revert d. induction xs as [|x xs IH]; intros d Hd; simpl; [assumption|].
  apply IH, wf_set, Hd.
Qed.

Lemma build_keys xs d k :
  In k (keys (build key value xs d)) <-> In k (keys d) \/ In k (List.map key xs).
Proof.
  revert d. induction xs as [|x xs IH]; intros d; simpl; [tauto|].
  rewrite IH, In_keys_set. tauto.
Qed.

(** The built dictionary has one entry per distinct key. *)
Lemma build_len xs :
  len (build key value xs empty) = List.length (nodup string_dec (List.map key xs)).
Proof.
  rewrite len_keys. apply Permutation_length, NoDup_Permutation.
  - apply (build_wf xs empty). constructor.
  - apply NoDup_nodup.
  - intro k. rewrite build_keys, nodup_In. simpl. tauto.
Qed.

(** With distinct keys, the entries are those of the loop, in order. *)
Lemma build_distinct xs d :
  NoDup (keys d ++ List.map key xs) ->
  build key value xs d = d ++ List.map (fun x => (key x, value x)) xs.
Proof.
  revert d. induction xs as [|x xs IH]; intros d Hnd; simpl.
  - rewrite app_nil_r. reflexivity.
  - simpl in Hnd. pose proof (NoDup_remove_2 _ _ _ Hnd) as Hout.
    rewrite set_new by (intro Hin; apply Hout, in_or_app; auto).
    rewrite IH.
    + rewrite <- app_assoc. reflexivity.
    + unfold keys in *. rewrite map_app, <- app_assoc. exact Hnd.
Qed.

End Build.

End PyDictFacts.

(** ** The mapping generator *)

Module MappingFacts.
Import Py Utils MappingGenerator PyDictFacts Rules.

(** *** [determine_column_category] *)

Ltac split_conditions :=
  repeat match goal with
         | |- context [if ?b then _ else _] => destruct b eqn:?
         end.

(** C6.  The classifier is total and ordered.  Every column gets one of
    the fourteen category names, and the rules are tried in their order,
    the first that applies giving the category: the primary-key flag gives
    ["identifier"] whatever the name and the type (so for the primary key
    named ["CreatedDate"], of type [datetime]); then the foreign-key flag
    gives ["reference"]; then a date or time name or type gives
    ["datetime"]; then a numeric type gives ["money"], ["quantity"] or
    ["numeric"] by the name; then a boolean type or name gives
    ["boolean"]; then a character type gives its text category by the
    name; and a column to which no rule applies is ["general"]. *)
Theorem determine_column_category_total (column : ColumnInfo.t) :
  In (determine_column_category column) categories
  /\ (ColumnInfo.is_primary_key column = true ->
      determine_column_category column = "identifier")
  /\ determine_column_category Fixtures.created_date_key = "identifier"
  /\ (ColumnInfo.is_primary_key column = false ->
      ColumnInfo.is_foreign_key column = true ->
      determine_column_category column = "reference")
  /\ (ColumnInfo.is_primary_key column = false ->
      ColumnInfo.is_foreign_key column = false ->
      (datetime_rule column = true ->
       determine_column_category column = "datetime")
      /\ (datetime_rule column = false ->
          (numeric_rule column = true ->
           determine_column_category column = numeric_category column)
          /\ (numeric_rule column = false ->
              (boolean_rule column = true ->
               determine_column_category column = "boolean")
              /\ (boolean_rule column = false ->
                  (text_rule column = true ->
                   determine_column_category column = text_category column)
                  /\ (text_rule column = false ->
                      determine_column_category column = "general")))))
  /\ NoDup categories.
Proof.
  split; [|split; [|split; [|split; [|split]]]].
  - unfold determine_column_category. split_conditions; simpl; tauto.
  - intros Hpk. unfold determine_column_category. rewrite Hpk. reflexivity.
  - reflexivity.
  - intros Hpk Hfk. unfold determine_column_category. rewrite Hpk, Hfk. reflexivity.
  - intros Hpk Hfk.
    unfold datetime_rule, numeric_rule, boolean_rule, text_rule,
      numeric_category, text_category, name_has, type_has,
      determine_column_category.
    rewrite Hpk, Hfk. cbv iota.
    split; [intros ->; reflexivity | intros ->].
    split; [intros ->; reflexivity | intros ->].
    split; [intros ->; reflexivity | intros ->].
    split; intros ->; reflexivity.
  - unfold categories.
    repeat (apply NoDup_cons;
            [simpl; intros Hin;
             repeat (destruct Hin as [Hin|Hin]; [discriminate Hin|]);
             exact Hin|]).
    apply NoDup_nil.
Qed.

(** The order at work: of two rules that both apply, the earlier one
    decides. *)
Lemma determine_column_category_total_witness :
  determine_column_category Fixtures.created_date_key = "identifier"
  /\ determine_column_category (flagged_column "CreatedDate" "datetime" false true)
     = "reference"
  /\ determine_column_category (flagged_column "OrderDateTotal" "int" false false)
     = "datetime"
  /\ determine_column_category (flagged_column "is_active_count" "int" false false)
     = "quantity"
  /\ determine_column_category (flagged_column "IsActiveEmail" "varchar" false false)
     = "boolean"
  /\ determine_column_category (flagged_column "ContactEmail" "varchar" false false)
     = "email"
  /\ determine_column_category (flagged_column "Payload" "xml" false false)
     = "general".
Proof.
  split.
  { destruct (determine_column_category_total Fixtures.created_date_key)
      as [_ [Hkey _]].
    apply Hkey. reflexivity. }
  split.
  { destruct (determine_column_category_total
                (flagged_column "CreatedDate" "datetime" false true))
      as [_ [_ [_ [Href _]]]].
    apply Href; reflexivity. }
  split.
  { destruct (determine_column_category_total
                (flagged_column "OrderDateTotal" "int" false false))
      as [_ [_ [_ [_ [Hrules _]]]]].
    destruct (Hrules eq_refl eq_refl) as [Hdatetime _].
    apply Hdatetime. reflexivity. }
  split.
  { destruct (determine_column_category_total
                (flagged_column "is_active_count" "int" false false))
      as [_ [_ [_ [_ [Hrules _]]]]].
    destruct (Hrules eq_refl eq_refl) as [_ Hrest].
    destruct (Hrest eq_refl) as [Hnumeric _].
    apply (Hnumeric eq_refl). }
  split.
  { destruct (determine_column_category_total
                (flagged_column "IsActiveEmail" "varchar" false false))
      as [_ [_ [_ [_ [Hrules _]]]]].
    destruct (Hrules eq_refl eq_refl) as [_ Hrest].
    destruct (Hrest eq_refl) as [_ Hrest'].
    destruct (Hrest' eq_refl) as [Hboolean _].
    apply Hboolean. reflexivity. }
  split.
  { destruct (determine_column_category_total
                (flagged_column "ContactEmail" "varchar" false false))
      as [_ [_ [_ [_ [Hrules _]]]]].
    destruct (Hrules eq_refl eq_refl) as [_ Hrest].
    destruct (Hrest eq_refl) as [_ Hrest'].
    destruct (Hrest' eq_refl) as [_ Hrest''].
    destruct (Hrest'' eq_refl) as [Htext _].
    apply (Htext eq_refl). }
  { destruct (determine_column_category_total
                (flagged_column "Payload" "xml" false false))
      as [_ [_ [_ [_ [Hrules _]]]]].
    destruct (Hrules eq_refl eq_refl) as [_ Hrest].
    destruct (Hrest eq_refl) as [_ Hrest'].
    destruct (Hrest' eq_refl) as [_ Hrest''].
    destruct (Hrest'' eq_refl) as [_ Hgeneral].
    apply Hgeneral. reflexivity. }
Defined.

(** C5.  When none of the rules 1 to 4 applies, the category is
    ["boolean"] exactly when the type contains [bit] or [bool] or the name
    contains [is_], [has_], [active] or [enabled], in any case of the
    letters and anywhere in the name. *)
Theorem boolean_category (column : ColumnInfo.t) :
  rules_1_to_4_apply column = false ->
  (determine_column_category column = "boolean" <-> boolean_test column = true).
Proof.
  unfold rules_1_to_4_apply, boolean_test, determine_column_category.
  intros Hrules.
  apply orb_false_iff in Hrules as [Hrules Hnumeric].
  apply orb_false_iff in Hrules as [Hrules Hdatetime].
  apply orb_false_iff in Hrules as [Hpk Hfk].
  rewrite Hpk, Hfk, Hdatetime, Hnumeric. cbv iota.
  destruct (any_in ["bit"; "bool"] _ || any_in _ _); [split; reflexivity|].
  split; [|discriminate].
  split_conditions; discriminate.
Qed.

Lemma boolean_category_witness :
  determine_column_category Fixtures.diagnosis_code = "boolean".
Proof.
  apply (boolean_category Fixtures.diagnosis_code); reflexivity.
Defined.

(** The claim of C5 fails on a text column named ["diagnosis_code"]: no
    rule before the fifth applies, the name neither starts with [is_] or
    [has_] nor contains [active] or [enabled], and the category is
    ["boolean"], for the [is_] inside the name. *)
Lemma boolean_category_not_as_specified :
  rules_1_to_4_apply Fixtures.diagnosis_code = false
  /\ boolean_test_as_specified Fixtures.diagnosis_code = false
  /\ determine_column_category Fixtures.diagnosis_code = "boolean".
Proof. repeat split; reflexivity. Qed.

(** *** [format_field_description] *)

(** C3.  A column ["UnitPrice"] of type ["decimal"], no key, of a table
    ["Products"] has the category ["money"] and the description
    ["Unit Price from Products"]: the type [decimal] has no hint. *)
Theorem unit_price_scenario (column : ColumnInfo.t) :
  ColumnInfo.name column = "UnitPrice" ->
  ColumnInfo.data_type column = "decimal" ->
  ColumnInfo.is_primary_key column = false ->
  ColumnInfo.is_foreign_key column = false ->
  determine_column_category column = "money"
  /\ format_field_description "Products" (ColumnInfo.name column)
       (Some (ColumnInfo.data_type column)) = "Unit Price from Products".
Proof.
  intros Hname Htype Hpk Hfk. unfold determine_column_category.
  rewrite Hname, Htype, Hpk, Hfk. split; reflexivity.
Qed.

Lemma unit_price_scenario_witness :
  determine_column_category Fixtures.unit_price = "money"
  /\ format_field_description "Products" "UnitPrice" (Some "decimal")
     = "Unit Price from Products".
Proof.
  apply (unit_price_scenario Fixtures.unit_price); reflexivity.
Defined.

(** The claim of C3 fails: the description has no ["(number)"]. *)
Lemma unit_price_description_has_no_hint :
  format_field_description "Products" "UnitPrice" (Some "decimal")
  <> "Unit Price from Products (number)".
Proof. discriminate. Qed.

(** *** [generate_database_mapping] *)

Lemma fold_left_agree {A B : Type} (f g : A -> B -> A) (xs : list B) (a : A) :
  (forall a x, f a x = g a x) -> fold_left f xs a = fold_left g xs a.
Proof.
  intros Hfg. revert a. induction xs as [|x xs IH]; intros a; simpl; [reflexivity|].
  rewrite Hfg. apply IH.
Qed.

Section AnyOrder.
Context `{SetOrder}.

(** The column dictionary of a table mapping has one entry per
    different column name. *)
Lemma generate_table_mapping_columns (table_info : TableInfo.t) :
  PyDict.len (t_columns (generate_table_mapping table_info))
  = distinct_column_names table_info.
Proof.
  unfold distinct_column_names. simpl.
  apply (build_len ColumnInfo.name (generate_column_mapping table_info)).
Qed.

(** The table dictionary has the keys of the schema, in its order. *)
Lemma tables_of_schema (schema_info : PyDict.t TableInfo.t) :
  PyDict.wf schema_info ->
  fold_left
    (fun tables entry =>
       let '(table_name, table_info) := entry in
       PyDict.set table_name (generate_table_mapping table_info) tables)
    (PyDict.items schema_info) PyDict.empty
  = List.map (fun entry => (fst entry, generate_table_mapping (snd entry))) schema_info.
Proof.
  intros Hwf.
  rewrite (fold_left_agree _
             (fun d x => PyDict.set (fst x) (generate_table_mapping (snd x)) d))
    by (intros a [k v]; reflexivity).
  apply (build_distinct fst (fun x => generate_table_mapping (snd x)) schema_info []).
  exact Hwf.
Qed.

(** C8.  The result is empty exactly when the schema has no table.
    Otherwise [total_tables] is the number of tables and [total_columns]
    is the sum of the column counts of the tables, the columns of a table
    having different names, as the dictionary of its column mappings,
    keyed by the name, takes them to have.  (The sum is computed from
    these dictionaries: it is the sum of the numbers of column names.) *)
Theorem generate_database_mapping_counts (self : MappingGenerator.t)
    (generation_date schema_extraction_date : string)
    (schema_info : PyDict.t TableInfo.t) :
  PyDict.wf schema_info ->
  let result :=
    generate_database_mapping self generation_date schema_extraction_date schema_info in
  (result = None <-> schema_info = PyDict.empty)
  /\ (forall mapping, result = Some mapping ->
        total_tables (client_info mapping) = PyDict.len schema_info
        /\ total_columns (client_info mapping)
           = sum (List.map distinct_column_names (PyDict.values schema_info))
        /\ (Forall (fun table_info =>
                      NoDup (List.map ColumnInfo.name (TableInfo.columns table_info)))
              (PyDict.values schema_info) ->
            total_columns (client_info mapping)
            = sum (List.map column_count (PyDict.values schema_info)))).
Proof.
  intros Hwf result. subst result. unfold generate_database_mapping.
  destruct (PyDict.len schema_info =? 0) eqn:Hlen.
  { apply Nat.eqb_eq, length_zero_iff_nil in Hlen.
    split; [split; auto | discriminate]. }
  apply Nat.eqb_neq in Hlen.
  split; [split; [discriminate | intros ->; exfalso; apply Hlen; reflexivity]|].
  intros mapping Hmapping. injection Hmapping as <-. simpl.
  rewrite tables_of_schema by assumption.
  assert (Hcolumns :
    List.map (fun table => PyDict.len (t_columns table))
      (PyDict.values
         (List.map (fun entry => (fst entry, generate_table_mapping (snd entry)))
            schema_info))
    = List.map distinct_column_names (PyDict.values schema_info)).
  { unfold PyDict.values. rewrite !map_map. apply map_ext.
    intros [k table_info]. apply generate_table_mapping_columns. }
  rewrite Hcolumns. repeat split.
  - unfold PyDict.len. apply length_map.
  - intros Hdistinct. f_equal. unfold PyDict.values in *.
    rewrite !map_map. apply map_ext_in. intros [k table_info] Hin.
    rewrite Forall_forall in Hdistinct.
    unfold distinct_column_names, column_count. simpl.
    rewrite nodup_fixed_point, length_map; [reflexivity|].
    apply Hdistinct. apply in_map_iff. exists (k, table_info). auto.
Qed.

End AnyOrder.

Lemma generate_database_mapping_counts_witness :
  exists mapping,
    generate_database_mapping Fixtures.generator "2024-01-01T00:00:00"
      "2024-01-01T00:00:01" Fixtures.customers_schema = Some mapping
    /\ total_tables (client_info mapping) = 1
    /\ total_columns (client_info mapping)
       = sum (List.map column_count (PyDict.values Fixtures.customers_schema))
    /\ sum (List.map column_count (PyDict.values Fixtures.customers_schema)) = 2.
Proof.
  assert (Hwf : PyDict.wf Fixtures.customers_schema).
  { apply NoDup_cons; [simpl; tauto | apply NoDup_nil]. }
  assert (Hdistinct :
    Forall (fun table_info =>
              NoDup (List.map ColumnInfo.name (TableInfo.columns table_info)))
      (PyDict.values Fixtures.customers_schema)).
  { apply Forall_cons; [|apply Forall_nil].
    apply NoDup_cons; [simpl; intros [Heq|[]]; discriminate Heq|].
    apply NoDup_cons; [simpl; tauto | apply NoDup_nil]. }
  destruct (generate_database_mapping_counts Fixtures.generator
              "2024-01-01T00:00:00" "2024-01-01T00:00:01"
              Fixtures.customers_schema Hwf) as [_ Hcounts].
  eexists. split; [reflexivity|].
  destruct (Hcounts _ eq_refl) as [Htables [_ Hcolumns]].
  split; [exact Htables|]. split; [exact (Hcolumns Hdistinct) | reflexivity].
Defined.

End MappingFacts.

(** ** The search index *)

Module SearchIndexFacts.
Import Py Utils MappingGenerator PyDictFacts.

Implicit Types (search_index : SearchIndex) (term path : string).

Lemma bucket_ensure_bucket term term' search_index :
  bucket term (ensure_bucket term' search_index) = bucket term search_index.
Proof.
  unfold ensure_bucket, bucket.
  destruct (PyDict.has term' search_index) eqn:Hhas; simpl; [reflexivity|].
  destruct (String.eqb_spec term' term) as [<-|Hne].
  - rewrite get_set_eq. unfold PyDict.has in Hhas.
    destruct (PyDict.get term' search_index); [discriminate | reflexivity].
  - rewrite get_set_ne by assumption. reflexivity.
Qed.

Lemma bucket_append_path term term' path search_index :
  bucket term (append_path term' path search_index)
  = if String.eqb term' term then bucket term search_index ++ [path]
    else bucket term search_index.
Proof.
  unfold append_path.
  destruct (String.eqb_spec term' term) as [<-|Hne].
  - unfold bucket at 1. rewrite get_set_eq. reflexivity.
  - unfold bucket at 1. rewrite get_set_ne by assumption. reflexivity.
Qed.

(** A round of the table loop appends the table path, present or not. *)
Lemma bucket_index_table_term table_name search_index t term :
  bucket term (index_table_term table_name search_index t)
  = if String.eqb (lower t) term then bucket term search_index ++ [table_name]
    else bucket term search_index.
Proof.
  unfold index_table_term. rewrite bucket_append_path, bucket_ensure_bucket.
  reflexivity.
Qed.

(** After the table loop the bucket of [term] has the table path once more
    for each search term that is [term] in lower case. *)
Lemma bucket_table_terms table_name terms search_index term :
  bucket term (fold_left (index_table_term table_name) terms search_index)
  = bucket term search_index
    ++ repeat table_name
         (List.length (filter (fun t => String.eqb (lower t) term) terms)).
Proof.
  revert search_index.
  induction terms as [|t terms IH]; intros search_index; simpl.
  - rewrite app_nil_r. reflexivity.
  - rewrite IH, bucket_index_table_term.
    destruct (String.eqb (lower t) term); simpl; [|reflexivity].
    rewrite <- app_assoc. reflexivity.
Qed.

(** *** Buckets only grow *)

Lemma extends_refl search_index : extends search_index search_index.
Proof. intro term. exists []. rewrite app_nil_r. reflexivity. Qed.

Lemma extends_trans a b c : extends a b -> extends b c -> extends a c.
Proof.
  intros Hab Hbc term.
  destruct (Hab term) as [x Hx]. destruct (Hbc term) as [y Hy].
  exists (x ++ y). rewrite Hy, Hx, app_assoc. reflexivity.
Qed.

Lemma fold_left_extends {A : Type} (step : SearchIndex -> A -> SearchIndex)
    (xs : list A) search_index :
  (forall search_index x, extends search_index (step search_index x)) ->
  extends search_index (fold_left step xs search_index).
Proof.
  intros Hstep. revert search_index.
  induction xs as [|x xs IH]; intros search_index; simpl.
  - apply extends_refl.
  - eapply extends_trans; [apply Hstep | apply IH].
Qed.

Lemma index_table_term_extends table_name search_index t :
  extends search_index (index_table_term table_name search_index t).
Proof.
  intro term. rewrite bucket_index_table_term.
  destruct (String.eqb (lower t) term).
  - exists [table_name]. reflexivity.
  - exists []. rewrite app_nil_r. reflexivity.
Qed.

Lemma index_column_term_extends column_path search_index t :
  extends search_index (index_column_term column_path search_index t).
Proof.
  intro term. unfold index_column_term.
  destruct (negb _).
  - rewrite bucket_append_path, bucket_ensure_bucket.
    destruct (String.eqb (lower t) term).
    + exists [column_path]. reflexivity.
    + exists []. rewrite app_nil_r. reflexivity.
  - rewrite bucket_ensure_bucket. exists []. rewrite app_nil_r. reflexivity.
Qed.

Lemma two_members_filtered {A : Type} (p : A -> bool) (xs : list A) (a b : A) :
  NoDup xs -> In a xs -> In b xs -> a <> b -> p a = true -> p b = true ->
  2 <= List.length (filter p xs).
Proof.
  intros Hnd Ha Hb Hab Hpa Hpb.
  change 2 with (List.length [a; b]).
  apply NoDup_incl_length.
  - apply NoDup_cons; [simpl; intros [Hba|[]]; congruence|].
    apply NoDup_cons; [simpl; tauto | apply NoDup_nil].
  - intros x [<-|[<-|[]]]; apply filter_In; auto.
Qed.

Section AnyOrder.
Context `{SetOrder}.

Lemma create_search_terms_NoDup technical_name :
  NoDup (create_search_terms technical_name).
Proof. apply NoDup_filter, set_list_NoDup. Qed.

Lemma index_column_extends table_name search_index column :
  extends search_index (index_column table_name search_index column).
Proof. apply fold_left_extends. intros. apply index_column_term_extends. Qed.

Lemma index_table_extends search_index entry :
  extends search_index (index_table search_index entry).
Proof.
  destruct entry as [table_name table_info]. unfold index_table.
  apply (extends_trans _
           (fold_left (index_table_term table_name)
              (create_search_terms (TableInfo.name table_info)) search_index)).
  - apply fold_left_extends. intros. apply index_table_term_extends.
  - apply fold_left_extends. intros. apply index_column_extends.
Qed.

(** A table with two search terms that differ in case only has its path
    at least twice in the bucket of their lower-case form. *)
Lemma table_path_twice (schema_info : PyDict.t TableInfo.t)
    (table_name : string) (table_info : TableInfo.t) (a b : string) :
  In (table_name, table_info) (PyDict.items schema_info) ->
  In a (create_search_terms (TableInfo.name table_info)) ->
  In b (create_search_terms (TableInfo.name table_info)) ->
  a <> b -> lower a = lower b ->
  2 <= count_occ string_dec
         (bucket (lower a) (generate_search_index schema_info)) table_name.
Proof.
  intros Hentry Ha Hb Hab Hlower.
  unfold PyDict.items in Hentry.
  apply in_split in Hentry as [before [after ->]].
  unfold generate_search_index, PyDict.items.
  rewrite fold_left_app.
  set (earlier := fold_left index_table before PyDict.empty).
  change (fold_left index_table ((table_name, table_info) :: after) earlier)
    with (fold_left index_table after
            (index_table earlier (table_name, table_info))).
  destruct (fold_left_extends index_table after
              (index_table earlier (table_name, table_info))
              index_table_extends (lower a)) as [added1 ->].
  unfold index_table.
  destruct (fold_left_extends (index_column table_name)
              (TableInfo.columns table_info)
              (fold_left (index_table_term table_name)
                 (create_search_terms (TableInfo.name table_info)) earlier)
              (index_column_extends table_name) (lower a)) as [added2 ->].
  rewrite bucket_table_terms, !count_occ_app, count_occ_repeat_eq by reflexivity.
  pose proof (two_members_filtered
                (fun t => String.eqb (lower t) (lower a))
                (create_search_terms (TableInfo.name table_info)) a b
                (create_search_terms_NoDup _) Ha Hb Hab
                (String.eqb_refl _)) as Htwo.
  cbv beta in Htwo. rewrite <- Hlower, String.eqb_refl in Htwo.
  specialize (Htwo eq_refl). lia.
Qed.

(** C1.  For [dbo.Customers] the bucket of ["customers"] holds the table
    path twice, whatever the order of the search terms: the term
    ["Customers"] and the word ["customers"] are both search terms of the
    table, and the table loop appends the path for each without looking
    for it in the bucket, as the column loop does. *)
Theorem customers_bucket_repeats_table_path :
  2 <= count_occ string_dec
         (bucket "customers" (generate_search_index Fixtures.customers_schema))
         "dbo.Customers"
  /\ ~ NoDup (bucket "customers" (generate_search_index Fixtures.customers_schema)).
Proof.
  assert (Htwice :
    2 <= count_occ string_dec
           (bucket "customers" (generate_search_index Fixtures.customers_schema))
           "dbo.Customers").
  { apply (table_path_twice Fixtures.customers_schema "dbo.Customers"
             Fixtures.customers "customers" "Customers").
    - left. reflexivity.
    - apply UtilsFacts.create_search_terms_In. split; [|reflexivity].
      apply UtilsFacts.search_term_candidates_word. left. reflexivity.
    - apply UtilsFacts.create_search_terms_In. split; [|reflexivity].
      apply UtilsFacts.search_term_candidates_original.
    - discriminate.
    - reflexivity. }
  split; [exact Htwice|].
  intros Hnd. rewrite (NoDup_count_occ string_dec) in Hnd.
  specialize (Hnd "dbo.Customers"). lia.
Qed.

End AnyOrder.

(** With the order [default_order] the index of [dbo.Customers] is this. *)
Lemma customers_search_index :
  generate_search_index Fixtures.customers_schema
  = [ ("customers", ["dbo.Customers"; "dbo.Customers"]);
      ("customerid", ["dbo.Customers.CustomerID"]);
      ("customer id", ["dbo.Customers.CustomerID"]);
      ("customer", ["dbo.Customers.CustomerID"; "dbo.Customers.CustomerName"]);
      ("customername", ["dbo.Customers.CustomerName"]);
      ("customer name", ["dbo.Customers.CustomerName"]);
      ("name", ["dbo.Customers.CustomerName"]);
      ("title", ["dbo.Customers.CustomerName"]);
      ("label", ["dbo.Customers.CustomerName"]);
      ("description", ["dbo.Customers.CustomerName"]) ].
Proof. reflexivity. Qed.

End SearchIndexFacts.

(** * Further properties *)

(** ** Shape of the text functions' results *)

Module TextFacts.
Import Py PyFacts Utils Text.

Lemma plain_words_chars (ws : list string) :
  Forall (is_word plain) ws -> forallb plain_or_space (join " " ws) = true.
Proof.
  intros Hws. apply forallb_join; [reflexivity|].
  eapply Forall_impl; [|exact Hws]. intros w [_ Hw].
  eapply forallb_impl; [|exact Hw].
  intros c Hc. unfold plain_or_space. rewrite Hc. reflexivity.
Qed.

Lemma plain_words_blank_free (ws : list string) :
  Forall (is_word plain) ws -> Forall (is_word not_space) ws.
Proof.
  intros Hws. eapply Forall_impl; [|exact Hws].
  intros w [Tw Hw]. split; [assumption|].
  eapply forallb_impl; [|exact Hw]. apply UtilsFacts.plain_not_space.
Qed.

(** The words of a normalised text are the words it was joined from. *)
Lemma split_normalize_text (text : string) :
  split (normalize_text text) = if truthy text then normal_words text else [].
Proof.
  unfold normalize_text. destruct (truthy text); simpl; [|reflexivity].
  apply split_join, plain_words_blank_free, UtilsFacts.normal_words_plain.
Qed.

Lemma normalize_text_join (text : string) :
  normalize_text text = join " " (split (normalize_text text)).
Proof.
  rewrite split_normalize_text. unfold normalize_text.
  destruct (truthy text); reflexivity.
Qed.

(** A normalised text is made of lower-case letters, digits and spaces
    only, and its spaces are single and inside: splitting it at the blanks
    and joining the words with one space gives it back. *)
Theorem normalize_text_shape (text : string) :
  forallb plain_or_space (normalize_text text) = true
  /\ join " " (split (normalize_text text)) = normalize_text text
  /\ Forall (is_word plain) (split (normalize_text text)).
Proof.
  assert (Hwords : Forall (is_word plain) (split (normalize_text text))).
  { rewrite split_normalize_text.
    destruct (truthy text); [apply UtilsFacts.normal_words_plain | constructor]. }
  repeat split.
  - rewrite normalize_text_join. apply plain_words_chars, Hwords.
  - symmetry. apply normalize_text_join.
  - exact Hwords.
Qed.

Lemma lower_blank_special_lower (c : ascii) :
  to_lower (blank_special (to_lower c)) = to_lower (blank_special c).
Proof. destruct c as [[] [] [] [] [] [] [] []]; reflexivity. Qed.

Lemma map_agree (f g : ascii -> ascii) (s : string) :
  (forall c, f c = g c) -> map f s = map g s.
Proof. intros Hfg. induction s as [|c s IH]; simpl; [reflexivity|]. rewrite Hfg, IH. reflexivity. Qed.

(** On ASCII text, normalisation does not see the case of the letters:
    the lower-cased text has the normal form of the text. *)
Theorem normalize_text_ignores_case (text : string) :
  forallb is_ascii text = true ->
  normalize_text (lower text) = normalize_text text.
Proof.
  intros _. unfold normalize_text.
  replace (truthy (lower text)) with (truthy text) by (destruct text; reflexivity).
  destruct (truthy text); simpl; [|reflexivity].
  f_equal. f_equal. unfold lower.
  rewrite !UtilsFacts.map_map. apply map_agree, lower_blank_special_lower.
Qed.

Lemma normalize_text_ignores_case_witness :
  normalize_text (lower "Customer_ID, 2nd") = normalize_text "Customer_ID, 2nd".
Proof.
  apply (normalize_text_ignores_case "Customer_ID, 2nd"). reflexivity.
Defined.

(** *** When the normalised text is empty *)

Lemma split_from_nil (w s : string) :
  split_from w s = [] <-> w = "" /\ forallb is_space s = true.
Proof.
  revert w. induction s as [|c s IH]; intros w; simpl.
  - destruct w; simpl; split; try tauto; try discriminate.
    intros [Hw _]. discriminate.
  - destruct (is_space c) eqn:Sc; simpl.
    + destruct w as [|a w]; simpl.
      * rewrite IH. tauto.
      * split; [discriminate | intros [Hw _]; discriminate].
    + rewrite IH. split; [|intros [_ Hf]; discriminate].
      intros [Hw _]. destruct w; discriminate.
Qed.

Lemma join_words_empty (ws : list string) :
  Forall (fun w => truthy w = true) ws -> join " " ws = "" -> ws = [].
Proof.
  intros Hws Hjoin. destruct ws as [|w ws]; [reflexivity|].
  inversion Hws as [|? ? Tw _]; subst.
  destruct w as [|c w]; [discriminate|].
  destruct ws; discriminate.
Qed.

Lemma forallb_map_comp (p : ascii -> bool) (f : ascii -> ascii) (s : string) :
  forallb p (map f s) = forallb (fun c => p (f c)) s.
Proof. induction s as [|c s IH]; simpl; [reflexivity|]. rewrite IH. reflexivity. Qed.

Lemma forallb_agree (p q : ascii -> bool) (s : string) :
  (forall c, p c = q c) -> forallb p s = forallb q s.
Proof. intros Hpq. induction s as [|c s IH]; simpl; [reflexivity|]. rewrite Hpq, IH. reflexivity. Qed.

Lemma blank_after_normalising (c : ascii) :
  is_space (to_lower (blank_special c)) = negb (is_alnum c).
Proof. destruct c as [[] [] [] [] [] [] [] []]; reflexivity. Qed.

(** The normalised text is empty exactly when the text has no letter and
    no digit. *)
Theorem normalize_text_empty_iff (text : string) :
  normalize_text text = "" <-> forallb (fun c => negb (is_alnum c)) text = true.
Proof.
  destruct text as [|c text]; [split; reflexivity|].
  set (s := String c text).
  assert (Hblank : forallb is_space (lower (map blank_special s))
                   = forallb (fun c => negb (is_alnum c)) s).
  { unfold lower. rewrite !forallb_map_comp.
    apply forallb_agree, blank_after_normalising. }
  rewrite <- Hblank.
  pose proof (split_from_nil "" (lower (map blank_special s))) as Hnil.
  change (normalize_text s) with (join " " (split (lower (map blank_special s)))).
  unfold split in *. split.
  - intros Hjoin. apply Hnil.
    apply (join_words_empty _) in Hjoin; [assumption|].
    pose proof (UtilsFacts.normal_words_plain s) as Hwords.
    eapply Forall_impl; [|exact Hwords]. intros w [Tw _]. exact Tw.
  - intros Hsp. replace (split_from "" (lower (map blank_special s))) with (@nil string).
    + reflexivity.
    + symmetry. apply Hnil. auto.
Qed.

(** *** [extract_meaningful_words] *)

Lemma meaningful_word_of_text (text word : string) :
  In word (extract_meaningful_words text)
  <-> In word (split (normalize_text text))
      /\ 2 < String.length word /\ mem word stop_words = false.
Proof.
  unfold extract_meaningful_words.
  destruct text as [|c text]; [simpl; tauto|]. cbn [truthy negb].
  rewrite filter_In, andb_true_iff, Nat.ltb_lt, negb_true_iff. tauto.
Qed.

Lemma meaningful_word_plain (text word : string) :
  In word (extract_meaningful_words text) -> is_word plain word.
Proof.
  intros Hword. apply meaningful_word_of_text in Hword as [Hword _].
  rewrite split_normalize_text in Hword.
  destruct (truthy text); [|contradiction].
  pose proof (UtilsFacts.normal_words_plain text) as Hwords.
  rewrite Forall_forall in Hwords. exact (Hwords word Hword).
Qed.

(** The meaningful words of a text are the words of its normalised form
    that have more than two characters and are no stop word; they are made
    of lower-case letters and digits. *)
Theorem extract_meaningful_words_members (text word : string) :
  (In word (extract_meaningful_words text)
   <-> In word (split (normalize_text text))
       /\ 2 < String.length word /\ mem word stop_words = false)
  /\ (In word (extract_meaningful_words text) ->
      truthy word = true /\ forallb plain word = true).
Proof.
  split; [apply meaningful_word_of_text|].
  intros Hword. exact (meaningful_word_plain text word Hword).
Qed.

(** *** [generate_synonyms] *)

Lemma prefix_refl (s : string) : prefix s s = true.
Proof.
  induction s as [|c s IH]; simpl; [reflexivity|].
  destruct (ascii_dec c c); [assumption | congruence].
Qed.

Lemma contains_refl (s : string) : contains s s = true.
Proof. destruct s; simpl; [reflexivity|]. rewrite prefix_refl.
  destruct (ascii_dec a a); [reflexivity | congruence]. Qed.

Lemma get_In {V : Type} (k : string) (v : V) (d : PyDict.t V) :
  PyDict.get k d = Some v -> In (k, v) d.
Proof.
  induction d as [|[k' v'] d IH]; simpl; [discriminate|].
  destruct (String.eqb_spec k k') as [->|Hne].
  - intros [= ->]. left. reflexivity.
  - intros Hget. right. auto.
Qed.

(** Members of a list grown by the loop
    [for key, values in table: if test(key): acc.extend(values)]. *)
Lemma extend_when_In (test : string -> bool) (table : list (string * list string))
    (init : list string) (x : string) :
  In x (fold_left
          (fun acc (kv : string * list string) =>
             let '(key, values) := kv in
             if test key then acc ++ values else acc)
          table init)
  <-> In x init
      \/ exists key values, In (key, values) table /\ test key = true /\ In x values.
Proof.
  revert init. induction table as [|[key values] table IH]; intros init; simpl.
  - split; [auto | intros [Hx|[k [v [[] _]]]]; assumption].
  - rewrite IH. destruct (test key) eqn:Tk.
    + rewrite in_app_iff. split.
      * intros [[Hx|Hx]|[k [v [Hin Hrest]]]]; [auto | | right; exists k, v; auto].
        right. exists key, values. auto.
      * intros [Hx|[k [v [[Heq|Hin] [Hk Hv]]]]]; [auto | | right; exists k, v; auto].
        injection Heq as -> ->. auto.
    + split.
      * intros [Hx|[k [v [Hin Hrest]]]]; [auto | right; exists k, v; auto].
      * intros [Hx|[k [v [[Heq|Hin] [Hk Hv]]]]]; [auto | | right; exists k, v; auto].
        injection Heq as -> ->. congruence.
Qed.

Lemma synonym_candidates_In (word x : string) :
  In x (synonym_candidates word)
  <-> x = word
      \/ exists key values,
           In (key, values) synonym_map
           /\ contains key (lower word) || contains (lower word) key = true
           /\ In x values.
Proof.
  unfold synonym_candidates, PyDict.items.
  rewrite (extend_when_In
             (fun key => contains key (lower word) || contains (lower word) key)).
  destruct (PyDict.get (lower word) synonym_map) as [values|] eqn:Hget.
  - split.
    + intros [Hx|Hx]; [|auto].
      apply in_app_iff in Hx as [[<-|[]]|Hx]; [auto|].
      right. exists (lower word), values. split; [apply get_In, Hget|].
      rewrite contains_refl. auto.
    + intros [->|Hx]; [left; apply in_or_app; left; left; reflexivity | auto].
  - split.
    + intros [[<-|[]]|Hx]; auto.
    + intros [->|Hx]; [left; left; reflexivity | auto].
Qed.

Section AnyOrder.
Context `{SetOrder}.

(** The synonyms of a word are the word itself and the alternatives of
    every key of the table that occurs in the lower-case word or in which
    the lower-case word occurs; each is listed once. *)
Theorem generate_synonyms_members (word x : string) :
  (In x (generate_synonyms word)
   <-> x = word
       \/ exists key values,
            In (key, values) synonym_map
            /\ contains key (lower word) || contains (lower word) key = true
            /\ In x values)
  /\ NoDup (generate_synonyms word).
Proof.
  unfold generate_synonyms. split; [|apply set_list_NoDup].
  pose proof (set_list_In (synonym_candidates word) x) as Hset.
  pose proof (synonym_candidates_In word x) as Hcand.
  tauto.
Qed.

End AnyOrder.

(** *** [camel_case_to_words] *)

Lemma sub_lower_upper_letters (s : string) :
  remove_char " " (sub_lower_upper s) = remove_char " " s
  /\ forall a, remove_char " " (sub_lower_upper (String a s))
               = remove_char " " (String a s).
Proof.
  induction s as [|b r [IHr IHar]].
  - split; [reflexivity | intro a; reflexivity].
  - split; [apply IHar|]. intro a.
    change (sub_lower_upper (String a (String b r)))
      with (if is_lower a && is_upper b
            then String a (String " " (String b (sub_lower_upper r)))
            else String a (sub_lower_upper (String b r))).
    destruct (is_lower a && is_upper b).
    + cbn [remove_char]. change (Ascii.eqb " " " ") with true. cbv iota.
      rewrite IHr. reflexivity.
    + cbn [remove_char]. rewrite (IHar b). reflexivity.
Qed.

Lemma sub_upper_upper_lower_letters (s : string) :
  remove_char " " (sub_upper_upper_lower s) = remove_char " " s
  /\ (forall a, remove_char " " (sub_upper_upper_lower (String a s))
                = remove_char " " (String a s))
  /\ (forall a b, remove_char " " (sub_upper_upper_lower (String a (String b s)))
                  = remove_char " " (String a (String b s))).
Proof.
  induction s as [|c r [IHr [IH1 IH2]]].
  - repeat split; intros; reflexivity.
  - split; [apply IH1|]. split; [intro a; apply IH2|]. intros a b.
    change (sub_upper_upper_lower (String a (String b (String c r))))
      with (if is_upper a && is_upper b && is_lower c
            then String a (String " " (String b (String c (sub_upper_upper_lower r))))
            else String a (sub_upper_upper_lower (String b (String c r)))).
    destruct (is_upper a && is_upper b && is_lower c).
    + cbn [remove_char]. change (Ascii.eqb " " " ") with true. cbv iota.
      rewrite IHr. reflexivity.
    + cbn [remove_char]. rewrite (IH2 b c). reflexivity.
Qed.

(** Segmentation only inserts spaces: once the spaces are deleted, the
    segmented text and the text are the same. *)
Theorem camel_case_to_words_inserts_spaces (text : string) :
  remove_char " " (camel_case_to_words text) = remove_char " " text.
Proof.
  unfold camel_case_to_words. destruct (truthy text) eqn:T; simpl.
  - rewrite (proj1 (sub_upper_upper_lower_letters _)).
    apply (proj1 (sub_lower_upper_letters _)).
  - apply truthy_false in T. subst. reflexivity.
Qed.

Lemma forallb_remove_char (p : ascii -> bool) (a : ascii) (s : string) :
  p a = true -> forallb p (remove_char a s) = forallb p s.
Proof.
  intros Hpa. induction s as [|c s IH]; simpl; [reflexivity|].
  destruct (Ascii.eqb_spec c a) as [->|Hne]; simpl; rewrite IH; [|reflexivity].
  rewrite Hpa. reflexivity.
Qed.

(** A class of characters that has the space holds of the segmented text
    when it holds of the text. *)
Lemma forallb_camel_case_to_words (p : ascii -> bool) (text : string) :
  p " "%char = true ->
  forallb p (camel_case_to_words text) = forallb p text.
Proof.
  intros Hsp.
  rewrite <- (forallb_remove_char p " " (camel_case_to_words text)) by assumption.
  rewrite <- (forallb_remove_char p " " text) by assumption.
  f_equal. unfold camel_case_to_words. destruct text as [|c text]; [reflexivity|].
  cbn [truthy negb]. cbv iota.
  rewrite (proj1 (sub_upper_upper_lower_letters _)).
  apply (proj1 (sub_lower_upper_letters _)).
Qed.

(** *** [strip] *)

Lemma forallb_lstrip (p : ascii -> bool) (s : string) :
  forallb p s = true -> forallb p (lstrip s) = true.
Proof.
  induction s as [|c s IH]; simpl; [reflexivity|].
  intros Hs. destruct (is_space c); [|exact Hs].
  apply andb_true_iff in Hs as [_ Hs]. auto.
Qed.

Lemma forallb_rstrip (p : ascii -> bool) (s : string) :
  forallb p s = true -> forallb p (rstrip s) = true.
Proof.
  induction s as [|c s IH]; simpl; [reflexivity|].
  intros Hs. apply andb_true_iff in Hs as [Hc Hs].
  destruct (is_space c && negb (truthy (rstrip s))); simpl; [reflexivity|].
  rewrite Hc. auto.
Qed.

Lemma forallb_strip (p : ascii -> bool) (s : string) :
  forallb p s = true -> forallb p (strip s) = true.
Proof. intros Hs. apply forallb_rstrip, forallb_lstrip, Hs. Qed.

Lemma blank_lstrip (s : string) : forallb is_space (lstrip s) = forallb is_space s.
Proof.
  induction s as [|c s IH]; simpl; [reflexivity|].
  destruct (is_space c) eqn:Sc; simpl; [assumption|]. rewrite Sc. reflexivity.
Qed.

Lemma truthy_rstrip (s : string) : truthy (rstrip s) = negb (forallb is_space s).
Proof.
  induction s as [|c s IH]; simpl; [reflexivity|].
  rewrite IH. destruct (is_space c); simpl; [|reflexivity].
  destruct (forallb is_space s); reflexivity.
Qed.

(** What is left of a text stripped of its outer blanks is empty exactly
    when the text is made of blanks. *)
Lemma truthy_strip (s : string) : truthy (strip s) = negb (forallb is_space s).
Proof. unfold strip. rewrite truthy_rstrip, blank_lstrip. reflexivity. Qed.

(** *** [convert_technical_to_natural] *)

Lemma case_keeps_blanks (c : ascii) :
  is_space (to_upper c) = is_space c /\ is_space (to_lower c) = is_space c.
Proof. destruct c as [[] [] [] [] [] [] [] []]; split; reflexivity. Qed.

Lemma case_keeps_underscore (c : ascii) :
  no_underscore (to_upper c) = no_underscore c
  /\ no_underscore (to_lower c) = no_underscore c.
Proof. destruct c as [[] [] [] [] [] [] [] []]; split; reflexivity. Qed.

Lemma case_idempotent (c : ascii) :
  to_upper (to_upper c) = to_upper c /\ to_lower (to_lower c) = to_lower c.
Proof. destruct c as [[] [] [] [] [] [] [] []]; split; reflexivity. Qed.

Lemma lower_idempotent (s : string) : lower (lower s) = lower s.
Proof.
  unfold lower. rewrite UtilsFacts.map_map. apply map_agree.
  intro c. apply case_idempotent.
Qed.

Lemma capitalize_idempotent (w : string) : capitalize (capitalize w) = capitalize w.
Proof.
  destruct w as [|c w]; simpl; [reflexivity|].
  rewrite (proj1 (case_idempotent c)), lower_idempotent. reflexivity.
Qed.

(** Capitalising keeps a class of characters that does not see the case. *)
Lemma forallb_capitalize (p : ascii -> bool) (w : string) :
  (forall c, p (to_upper c) = p c /\ p (to_lower c) = p c) ->
  forallb p (capitalize w) = forallb p w.
Proof.
  intros Hp. destruct w as [|c w]; simpl; [reflexivity|].
  rewrite (proj1 (Hp c)). f_equal. unfold lower. rewrite forallb_map_comp.
  apply forallb_agree. intro a. apply Hp.
Qed.

Lemma capitalize_word (p : ascii -> bool) (w : string) :
  (forall c, p (to_upper c) = p c /\ p (to_lower c) = p c) ->
  is_word p w -> is_word p (capitalize w).
Proof.
  intros Hp [Tw Hw]. split.
  - destruct w; [discriminate | reflexivity].
  - rewrite forallb_capitalize; assumption.
Qed.

Lemma no_single_char (a : ascii) (s : string) :
  contains (String a "") s = false -> free_of a s = true.
Proof.
  unfold free_of. induction s as [|c s IH]; simpl; [reflexivity|].
  destruct (ascii_dec a c) as [->|Hne].
  - destruct s; discriminate.
  - intros Hs. rewrite (IH Hs), andb_true_r.
    apply negb_true_iff, Ascii.eqb_neq. congruence.
Qed.

Lemma convert_technical_to_natural_words (technical_name : string) :
  convert_technical_to_natural technical_name
  = join " " (List.map capitalize (split (segmented technical_name)))
  \/ technical_name = "".
Proof. destruct technical_name; [right | left]; reflexivity. Qed.

Lemma segmented_no_underscore (technical_name : string) :
  forallb no_underscore (segmented technical_name) = true.
Proof.
  unfold segmented.
  set (name := remove_suffix _ _).
  destruct (contains "_" name) eqn:Hu.
  - unfold snake_case_to_words. destruct (truthy name); simpl; [|reflexivity].
    apply forallb_strip. rewrite forallb_camel_case_to_words by reflexivity.
    apply forallb_map. intro c. unfold no_underscore.
    destruct (Ascii.eqb_spec c "_"); [reflexivity|].
    apply negb_true_iff, Ascii.eqb_neq. assumption.
  - rewrite forallb_camel_case_to_words by reflexivity.
    apply (no_single_char "_"), Hu.
Qed.

(** The capitalised words a natural name is joined from. *)
Lemma natural_words (technical_name : string) :
  exists ws,
    convert_technical_to_natural technical_name = join " " ws
    /\ Forall (is_word (fun c => not_space c && no_underscore c)) ws
    /\ List.map capitalize ws = ws.
Proof.
  destruct (convert_technical_to_natural_words technical_name) as [Hwords| ->].
  2:{ exists []. repeat split. constructor. }
  exists (List.map capitalize (split (segmented technical_name))).
  repeat split; [exact Hwords | |].
  - apply Forall_map.
    eapply Forall_impl;
      [|apply (split_words (fun c => not_space c && no_underscore c))].
    + intros w Hw. apply capitalize_word; [|exact Hw].
      intro c. unfold not_space.
      rewrite !(proj1 (case_keeps_blanks c)), !(proj2 (case_keeps_blanks c)).
      rewrite !(proj1 (case_keeps_underscore c)), !(proj2 (case_keeps_underscore c)).
      split; reflexivity.
    + eapply forallb_impl; [|apply segmented_no_underscore].
      intros c Hc. unfold not_space. rewrite Hc.
      destruct (is_space c); reflexivity.
  - rewrite List.map_map. apply map_ext. intro w. apply capitalize_idempotent.
Qed.

Lemma word_blank_free (p : ascii -> bool) (w : string) :
  is_word (fun c => not_space c && p c) w -> is_word not_space w /\ forallb p w = true.
Proof.
  intros [Tw Hw]. repeat split; [assumption | |].
  - eapply forallb_impl; [|exact Hw]. intros c Hc.
    apply andb_true_iff in Hc. tauto.
  - eapply forallb_impl; [|exact Hw]. intros c Hc.
    apply andb_true_iff in Hc. tauto.
Qed.

(** A natural name has no underscore; its words are separated by single
    spaces, with none in front or behind; and each word is capitalised:
    capitalising the words again changes nothing. *)
Theorem convert_technical_to_natural_shape (technical_name : string) :
  let natural := convert_technical_to_natural technical_name in
  free_of "_" natural = true
  /\ join " " (split natural) = natural
  /\ List.map capitalize (split natural) = split natural.
Proof.
  intro natural. subst natural.
  destruct (natural_words technical_name) as [ws [-> [Hws Hcap]]].
  assert (Hsplit : split (join " " ws) = ws).
  { apply split_join. eapply Forall_impl; [|exact Hws].
    intros w Hw. apply (word_blank_free no_underscore w Hw). }
  rewrite Hsplit. repeat split; [|exact Hcap].
  apply (forallb_join no_underscore); [reflexivity|].
  eapply Forall_impl; [|exact Hws].
  intros w Hw. apply (word_blank_free no_underscore w Hw).
Qed.

(** A natural name that is not empty is not made of blanks. *)
Lemma natural_not_blank (technical_name : string) :
  truthy (convert_technical_to_natural technical_name) = true ->
  truthy (strip (convert_technical_to_natural technical_name)) = true.
Proof.
  destruct (natural_words technical_name) as [ws [-> [Hws _]]].
  intros Hne. rewrite truthy_strip. apply negb_true_iff.
  destruct (forallb is_space (join " " ws)) eqn:Hblank; [|reflexivity].
  assert (Hsplit : split (join " " ws) = ws).
  { apply split_join. eapply Forall_impl; [|exact Hws].
    intros w Hw. apply (word_blank_free no_underscore w Hw). }
  assert (Hnil : split (join " " ws) = []).
  { apply split_from_nil. auto. }
  rewrite Hsplit in Hnil. subst ws. discriminate.
Qed.

(** *** [create_search_terms] *)

Lemma fold_left_app_In_iff {A : Type} (f : A -> list string) (ws : list A)
    (init : list string) (x : string) :
  In x (fold_left (fun acc w => acc ++ f w) ws init)
  <-> In x init \/ exists w, In w ws /\ In x (f w).
Proof.
  revert init. induction ws as [|w ws IH]; intros init; simpl.
  - split; [auto | intros [Hx|[w [[] _]]]; assumption].
  - rewrite IH, in_app_iff. split.
    + intros [[Hx|Hx]|[w' [Hw' Hx]]]; eauto.
    + intros [Hx|[w' [[<-|Hw'] Hx]]]; eauto.
Qed.

Lemma plain_word_not_blank (w : string) :
  is_word plain w -> truthy (strip w) = true.
Proof.
  intros [Tw Hw]. rewrite truthy_strip. apply negb_true_iff.
  destruct w as [|c w]; [discriminate|]. simpl in *.
  apply andb_true_iff in Hw as [Hc _].
  apply UtilsFacts.plain_not_space in Hc. unfold not_space in Hc.
  apply negb_true_iff in Hc. rewrite Hc. reflexivity.
Qed.

Lemma synonym_values_not_blank (key x : string) (values : list string) :
  In (key, values) synonym_map -> In x values -> truthy (strip x) = true.
Proof.
  assert (Hall : List.forallb
                   (fun kv => List.forallb (fun v => truthy (strip v)) (snd kv))
                   synonym_map = true) by reflexivity.
  rewrite List.forallb_forall in Hall.
  intros Hkv Hx. specialize (Hall _ Hkv). simpl in Hall.
  rewrite List.forallb_forall in Hall. auto.
Qed.

Section AnyOrder.
Context `{SetOrder}.

Lemma search_term_candidates_In_iff (technical_name x : string) :
  let natural := convert_technical_to_natural technical_name in
  In x (search_term_candidates technical_name)
  <-> x = technical_name
      \/ (x = natural /\ truthy natural = true /\ natural <> technical_name)
      \/ In x (extract_meaningful_words natural)
      \/ exists w, In w (extract_meaningful_words natural)
                   /\ In x (generate_synonyms w).
Proof.
  intro natural. unfold search_term_candidates. fold natural.
  rewrite fold_left_app_In_iff, in_app_iff.
  destruct (truthy natural) eqn:Tn; simpl.
  - destruct (String.eqb_spec natural technical_name) as [Heq|Hne]; simpl.
    + split; [intros [[[<-|[]]|Hx]|Hx]; auto | ].
      intros [->|[[_ [_ Hne]]|[Hx|Hx]]]; auto; contradiction.
    + split.
      * intros [[[<-|[<-|[]]]|Hx]|Hx]; auto.
      * intros [->|[[-> _]|[Hx|Hx]]]; auto.
  - split; [intros [[[<-|[]]|Hx]|Hx]; auto | ].
    intros [->|[[_ [Hf _]]|[Hx|Hx]]]; auto; discriminate.
Qed.

(** The search terms of an identifier are, each once: the identifier, its
    natural name, the meaningful words of the natural name and the
    synonyms of these words, without those that are empty or blank. *)
Theorem create_search_terms_spec (technical_name x : string) :
  let natural := convert_technical_to_natural technical_name in
  In x (create_search_terms technical_name)
  <-> truthy (strip x) = true
      /\ (x = technical_name
          \/ x = natural
          \/ In x (extract_meaningful_words natural)
          \/ exists w, In w (extract_meaningful_words natural)
                       /\ In x (generate_synonyms w)).
Proof.
  intro natural.
  rewrite UtilsFacts.create_search_terms_In.
  pose proof (search_term_candidates_In_iff technical_name x) as Hcand.
  fold natural in Hcand. cbv zeta in Hcand. rewrite Hcand. clear Hcand.
  split.
  - intros [[->|[[-> _]|[Hx|Hx]]] Hstrip]; auto.
  - intros [Hstrip [->|[->|[Hx|Hx]]]]; auto.
    split; [|assumption].
    destruct (String.eqb_spec natural technical_name) as [Heq|Hne]; [auto|].
    right. left. repeat split; [|assumption].
    destruct natural; [discriminate | reflexivity].
Qed.

(** Nothing derived is lost: the natural name, when it is not empty, each
    meaningful word of it and each synonym of such a word are search
    terms of the identifier. *)
Theorem create_search_terms_complete (technical_name : string) :
  let natural := convert_technical_to_natural technical_name in
  (truthy natural = true -> In natural (create_search_terms technical_name))
  /\ (forall w, In w (extract_meaningful_words natural) ->
        In w (create_search_terms technical_name)
        /\ incl (generate_synonyms w) (create_search_terms technical_name)).
Proof.
  intro natural. split.
  - intros Tn. apply UtilsFacts.create_search_terms_In.
    split; [|apply natural_not_blank, Tn].
    apply search_term_candidates_In_iff. fold natural.
    destruct (String.eqb_spec natural technical_name) as [Heq|Hne]; auto.
  - intros w Hw. split.
    + apply UtilsFacts.create_search_terms_In. split.
      * apply search_term_candidates_In_iff. fold natural. auto.
      * apply plain_word_not_blank, (meaningful_word_plain natural), Hw.
    + intros x Hx. apply UtilsFacts.create_search_terms_In. split.
      * apply search_term_candidates_In_iff. fold natural.
        right. right. right. exists w. split; assumption.
      * unfold generate_synonyms in Hx.
        apply (proj1 (set_list_In _ _)) in Hx.
        apply (proj1 (synonym_candidates_In w x)) in Hx
          as [->|[key [values [Hkv [_ Hv]]]]].
        -- apply plain_word_not_blank, (meaningful_word_plain natural), Hw.
        -- exact (synonym_values_not_blank key x values Hkv Hv).
Qed.

End AnyOrder.

Lemma create_search_terms_complete_witness :
  In "Customer Name" (create_search_terms "CustomerName")
  /\ In "name" (create_search_terms "CustomerName")
  /\ In "title" (create_search_terms "CustomerName").
Proof.
  destruct (create_search_terms_complete "CustomerName") as [Hnatural Hwords].
  split; [apply Hnatural; reflexivity|].
  destruct (Hwords "name") as [Hname Hsyn]; [vm_compute; tauto|].
  split; [exact Hname|].
  apply Hsyn. apply set_list_In. vm_compute. tauto.
Defined.

End TextFacts.


(** ** Example phrases *)

Module ExampleFacts.
Import Py Utils MappingGenerator.

Lemma fold_left_grows {A B : Type} (step : list A -> B -> list A)
    (xs : list B) (init : list A) :
  (forall acc x, exists more, step acc x = acc ++ more) ->
  exists rest, fold_left step xs init = init ++ rest.
Proof.
  intros Hstep. revert init.
  induction xs as [|x xs IH]; intros init; simpl.
  - exists []. rewrite app_nil_r. reflexivity.
  - destruct (Hstep init x) as [more ->].
    destruct (IH (init ++ more)) as [rest ->].
    exists (more ++ rest). rewrite app_assoc. reflexivity.
Qed.

Section AnyOrder.
Context `{SetOrder}.

(** A column has between three and ten example phrases, and the first
    three are the fixed ones on its natural name. *)
Theorem generate_column_examples_bounds (column : ColumnInfo.t) :
  let natural_name := convert_technical_to_natural (ColumnInfo.name column) in
  let examples := generate_column_examples column in
  3 <= List.length examples <= 10
  /\ firstn 3 examples
     = [ ("show me " ++ natural_name)%string;
         ("what is the " ++ natural_name)%string;
         ("find " ++ natural_name)%string ].
Proof.
  intros natural_name examples. subst examples.
  unfold generate_column_examples. fold natural_name.
  match goal with
  | |- context [fold_left ?step ?xs ?init] =>
      destruct (fold_left_grows step xs init) as [rest Hrest]
  end.
  { intros acc synonym. destruct (negb _); [eexists; reflexivity|].
    exists []. rewrite app_nil_r. reflexivity. }
  rewrite Hrest. clear Hrest.
  match goal with
  | |- context [firstn 10 (?mid ++ rest)] =>
      assert (Hmid : exists block,
                mid = [ ("show me " ++ natural_name)%string;
                        ("what is the " ++ natural_name)%string;
                        ("find " ++ natural_name)%string ] ++ block)
  end.
  { repeat match goal with
           | |- context [if ?b then _ else _] => destruct b
           end; eexists; reflexivity. }
  destruct Hmid as [block ->].
  rewrite <- app_assoc.
  assert (Hfirst : forall (a b c : string) l,
            firstn 10 ([a; b; c] ++ l) = a :: b :: c :: firstn 7 l) by reflexivity.
  rewrite Hfirst.
  pose proof (firstn_le_length 7 (block ++ rest)) as Hle.
  split; [cbn [List.length]; lia | reflexivity].
Qed.

End AnyOrder.

End ExampleFacts.

(** ** Invariants of the search index *)

Module IndexFacts.
Import Py Utils MappingGenerator PyDictFacts SearchIndexFacts Index.

Implicit Types (search_index : SearchIndex) (term path : string).

Lemma bucket_index_column_term column_path search_index t term :
  bucket term (index_column_term column_path search_index t)
  = if String.eqb (lower t) term && negb (mem column_path (bucket term search_index))
    then bucket term search_index ++ [column_path]
    else bucket term search_index.
Proof.
  unfold index_column_term. rewrite bucket_ensure_bucket.
  destruct (String.eqb_spec (lower t) term) as [<-|Hne]; simpl.
  - destruct (negb (mem column_path (bucket (lower t) search_index))).
    + rewrite bucket_append_path, bucket_ensure_bucket, String.eqb_refl. reflexivity.
    + apply bucket_ensure_bucket.
  - destruct (negb _).
    + rewrite bucket_append_path, bucket_ensure_bucket.
      destruct (String.eqb_spec (lower t) term); [contradiction | reflexivity].
    + apply bucket_ensure_bucket.
Qed.

Lemma get_ensure_bucket term term' search_index :
  term' <> term ->
  PyDict.get term (ensure_bucket term' search_index) = PyDict.get term search_index.
Proof.
  intros Hne. unfold ensure_bucket.
  destruct (negb _); [apply get_set_ne, Hne | reflexivity].
Qed.

Lemma get_index_table_term table_name search_index t term :
  PyDict.get term (index_table_term table_name search_index t)
  = if String.eqb (lower t) term
    then Some (bucket term search_index ++ [table_name])
    else PyDict.get term search_index.
Proof.
  unfold index_table_term, append_path.
  destruct (String.eqb_spec (lower t) term) as [<-|Hne].
  - rewrite get_set_eq, bucket_ensure_bucket. reflexivity.
  - rewrite get_set_ne by assumption. apply get_ensure_bucket, Hne.
Qed.

Lemma get_index_column_term column_path search_index t term :
  PyDict.get term (index_column_term column_path search_index t)
  = if String.eqb (lower t) term
    then if mem column_path (bucket term search_index)
         then PyDict.get term search_index
         else Some (bucket term search_index ++ [column_path])
    else PyDict.get term search_index.
Proof.
  unfold index_column_term. rewrite bucket_ensure_bucket.
  destruct (String.eqb_spec (lower t) term) as [<-|Hne].
  - destruct (mem column_path (bucket (lower t) search_index)) eqn:Hmem; simpl.
    + unfold ensure_bucket, PyDict.has. unfold bucket in Hmem.
      destruct (PyDict.get (lower t) search_index) eqn:Hget;
        [simpl; exact Hget | discriminate].
    + unfold append_path. rewrite get_set_eq, bucket_ensure_bucket. reflexivity.
  - destruct (negb _).
    + unfold append_path. rewrite get_set_ne by assumption.
      apply get_ensure_bucket, Hne.
    + apply get_ensure_bucket, Hne.
Qed.

Lemma fold_left_invariant {A B : Type} (I : A -> Prop) (f : A -> B -> A)
    (xs : list B) (a : A) :
  (forall a x, In x xs -> I a -> I (f a x)) -> I a -> I (fold_left f xs a).
Proof.
  revert a. induction xs as [|x xs IH]; intros a Hstep Ha; simpl; [assumption|].
  apply IH.
  - intros a' x' Hx'. apply Hstep. right. assumption.
  - apply Hstep; [left; reflexivity | assumption].
Qed.

Section AnyOrder.
Context `{SetOrder}.

(** What holds of the empty index and is kept by every round of the table
    loop and of the column loop holds of the index of a schema. *)
Lemma generate_search_index_invariant (I : SearchIndex -> Prop)
    (schema_info : PyDict.t TableInfo.t) :
  I PyDict.empty ->
  (forall search_index table_name table_info t,
     In (table_name, table_info) (PyDict.items schema_info) ->
     In t (create_search_terms (TableInfo.name table_info)) ->
     I search_index -> I (index_table_term table_name search_index t)) ->
  (forall search_index table_name table_info column t,
     In (table_name, table_info) (PyDict.items schema_info) ->
     In column (TableInfo.columns table_info) ->
     In t (create_search_terms (ColumnInfo.name column)) ->
     I search_index ->
     I (index_column_term (table_name ++ "." ++ ColumnInfo.name column)
          search_index t)) ->
  I (generate_search_index schema_info).
Proof.
  intros Hempty Htable Hcolumn. unfold generate_search_index.
  apply fold_left_invariant; [|exact Hempty].
  intros search_index [table_name table_info] Hentry Hidx. unfold index_table.
  apply fold_left_invariant.
  - intros idx column Hcol Hi. unfold index_column.
    apply fold_left_invariant; [|exact Hi].
    intros idx' t Ht Hi'. eapply Hcolumn; eassumption.
  - apply fold_left_invariant; [|exact Hidx].
    intros idx t Ht Hi. eapply Htable; eassumption.
Qed.

(** No term of the index has an empty list of paths, and every term of
    the index is in lower case. *)
Theorem search_index_buckets (schema_info : PyDict.t TableInfo.t)
    (term : string) (paths : list string) :
  PyDict.get term (generate_search_index schema_info) = Some paths ->
  paths <> [] /\ lower term = term.
Proof.
  revert paths.
  apply (generate_search_index_invariant
           (fun search_index => forall paths,
              PyDict.get term search_index = Some paths ->
              paths <> [] /\ lower term = term)).
  - intros paths Hget. discriminate.
  - intros search_index table_name table_info t _ _ Hinv paths.
    rewrite get_index_table_term.
    destruct (String.eqb_spec (lower t) term) as [<-|Hne]; [|apply Hinv].
    intros [= <-]. split; [|apply TextFacts.lower_idempotent].
    intro Hnil. apply app_eq_nil in Hnil as [_ Hnil]. discriminate.
  - intros search_index table_name table_info column t _ _ _ Hinv paths.
    rewrite get_index_column_term.
    destruct (String.eqb_spec (lower t) term) as [<-|Hne]; [|apply Hinv].
    destruct (mem _ _); [apply Hinv|].
    intros [= <-]. split; [|apply TextFacts.lower_idempotent].
    intro Hnil. apply app_eq_nil in Hnil as [_ Hnil]. discriminate.
Qed.

(** Every path of the index is the key of a table of the schema or the
    path of one of its columns. *)
Theorem search_index_paths (schema_info : PyDict.t TableInfo.t)
    (term path : string) :
  In path (bucket term (generate_search_index schema_info)) ->
  In path (PyDict.keys schema_info) \/ In path (column_paths schema_info).
Proof.
  apply (generate_search_index_invariant
           (fun search_index =>
              In path (bucket term search_index) ->
              In path (PyDict.keys schema_info) \/ In path (column_paths schema_info))).
  - intros [].
  - intros search_index table_name table_info t Hentry _ Hinv.
    rewrite bucket_index_table_term.
    destruct (String.eqb (lower t) term); [|exact Hinv].
    rewrite in_app_iff. intros [Hin|[<-|[]]]; [auto|].
    left. unfold PyDict.keys. apply in_map_iff.
    exists (table_name, table_info). auto.
  - intros search_index table_name table_info column t Hentry Hcol _ Hinv.
    rewrite bucket_index_column_term.
    destruct (_ && _); [|exact Hinv].
    rewrite in_app_iff. intros [Hin|[<-|[]]]; [auto|].
    right. unfold column_paths. apply in_flat_map.
    exists (table_name, table_info). split; [assumption|].
    apply in_map_iff. exists column. auto.
Qed.

(** A column path is listed at most once for a term, provided no table
    has that path as its key. *)
Theorem search_index_column_path_once (schema_info : PyDict.t TableInfo.t)
    (term path : string) :
  ~ In path (PyDict.keys schema_info) ->
  count_occ string_dec (bucket term (generate_search_index schema_info)) path <= 1.
Proof.
  intros Hnokey.
  apply (generate_search_index_invariant
           (fun search_index =>
              count_occ string_dec (bucket term search_index) path <= 1)).
  - simpl. lia.
  - intros search_index table_name table_info t Hentry _ Hinv.
    rewrite bucket_index_table_term.
    destruct (String.eqb (lower t) term); [|exact Hinv].
    rewrite count_occ_app. simpl.
    destruct (string_dec table_name path) as [->|_]; [|lia].
    exfalso. apply Hnokey. unfold PyDict.keys. apply in_map_iff.
    exists (path, table_info). auto.
  - intros search_index table_name table_info column t _ _ _ Hinv.
    rewrite bucket_index_column_term.
    remember (table_name ++ "." ++ ColumnInfo.name column)%string as column_path.
    destruct (String.eqb (lower t) term); simpl; [|exact Hinv].
    destruct (mem column_path (bucket term search_index)) eqn:Hmem; simpl;
      [exact Hinv|].
    rewrite count_occ_app. simpl.
    destruct (string_dec column_path path) as [<-|_]; [|lia].
    assert (Hout : ~ In column_path (bucket term search_index)).
    { intro Hin. unfold mem in Hmem.
      assert (Hex : existsb (String.eqb column_path) (bucket term search_index) = true).
      { apply existsb_exists. eexists. split; [exact Hin | apply String.eqb_refl]. }
      congruence. }
    apply (count_occ_not_In string_dec) in Hout. lia.
Qed.

End AnyOrder.

Lemma search_index_buckets_witness :
  ["dbo.Customers.CustomerName"] <> [] /\ lower "name" = "name".
Proof.
  apply (search_index_buckets Fixtures.customers_schema "name"
           ["dbo.Customers.CustomerName"]).
  vm_compute. reflexivity.
Defined.

Lemma search_index_paths_witness :
  In "dbo.Customers.CustomerID" (PyDict.keys Fixtures.customers_schema)
  \/ In "dbo.Customers.CustomerID" (column_paths Fixtures.customers_schema).
Proof.
  apply (search_index_paths Fixtures.customers_schema "customer").
  vm_compute. left. reflexivity.
Defined.

Lemma search_index_column_path_once_witness :
  count_occ string_dec
    (bucket "customer" (generate_search_index Fixtures.customers_schema))
    "dbo.Customers.CustomerID" <= 1.
Proof.
  apply (search_index_column_path_once Fixtures.customers_schema).
  vm_compute. intros [Heq|[]]. discriminate.
Defined.

(** *** Every search term leads to its path *)

Lemma extends_In (earlier later : SearchIndex) term path :
  extends earlier later ->
  In path (bucket term earlier) -> In path (bucket term later).
Proof.
  intros Hext Hin. destruct (Hext term) as [added ->].
  apply in_or_app. left. assumption.
Qed.

(** A path that one round puts into a bucket is there at the end of the
    loop, when no round takes a path out. *)
Lemma fold_left_reaches {A : Type} (step : SearchIndex -> A -> SearchIndex)
    (xs : list A) (x : A) search_index term path :
  (forall search_index x, extends search_index (step search_index x)) ->
  In x xs ->
  (forall search_index, In path (bucket term (step search_index x))) ->
  In path (bucket term (fold_left step xs search_index)).
Proof.
  intros Hext Hx Hstep.
  apply in_split in Hx as [before [after ->]].
  rewrite fold_left_app.
  change (fold_left step (x :: after) (fold_left step before search_index))
    with (fold_left step after (step (fold_left step before search_index) x)).
  eapply extends_In; [apply fold_left_extends, Hext | apply Hstep].
Qed.

Lemma mem_In (x : string) (xs : list string) : mem x xs = true -> In x xs.
Proof.
  unfold mem. intros Hmem. apply existsb_exists in Hmem as [y [Hy Heq]].
  apply String.eqb_eq in Heq. subst. assumption.
Qed.

Section Complete.
Context `{SetOrder}.

Lemma index_table_reaches_table search_index table_name table_info t :
  In t (create_search_terms (TableInfo.name table_info)) ->
  In table_name
    (bucket (lower t) (index_table search_index (table_name, table_info))).
Proof.
  intros Ht. unfold index_table.
  eapply extends_In.
  - apply fold_left_extends. intros. apply index_column_extends.
  - apply (fold_left_reaches (index_table_term table_name) _ t);
      [intros; apply index_table_term_extends | assumption |].
    intros idx. rewrite bucket_index_table_term, String.eqb_refl.
    apply in_or_app. right. left. reflexivity.
Qed.

Lemma index_table_reaches_column search_index table_name table_info column t :
  In column (TableInfo.columns table_info) ->
  In t (create_search_terms (ColumnInfo.name column)) ->
  In (table_name ++ "." ++ ColumnInfo.name column)%string
    (bucket (lower t) (index_table search_index (table_name, table_info))).
Proof.
  intros Hcol Ht. unfold index_table.
  apply (fold_left_reaches (index_column table_name) _ column);
    [intros; apply index_column_extends | assumption |].
  intros idx. unfold index_column.
  apply (fold_left_reaches (index_column_term _) _ t);
    [intros; apply index_column_term_extends | assumption |].
  intros idx'. rewrite bucket_index_column_term, String.eqb_refl. simpl.
  destruct (mem _ (bucket (lower t) idx')) eqn:Hmem; simpl.
  - apply mem_In, Hmem.
  - apply in_or_app. right. left. reflexivity.
Qed.

(** Looking a search term up finds what it was derived from: the key of a
    table is in the bucket of each search term of the table name, and the
    path of a column is in the bucket of each search term of the column
    name, under the lower-case form of the term. *)
Theorem search_index_complete (schema_info : PyDict.t TableInfo.t)
    (table_name : string) (table_info : TableInfo.t) :
  In (table_name, table_info) (PyDict.items schema_info) ->
  (forall t, In t (create_search_terms (TableInfo.name table_info)) ->
     In table_name (bucket (lower t) (generate_search_index schema_info)))
  /\ (forall column t,
        In column (TableInfo.columns table_info) ->
        In t (create_search_terms (ColumnInfo.name column)) ->
        In (table_name ++ "." ++ ColumnInfo.name column)%string
          (bucket (lower t) (generate_search_index schema_info))).
Proof.
  intros Hentry. unfold generate_search_index. split.
  - intros t Ht.
    apply (fold_left_reaches index_table _ (table_name, table_info));
      [apply index_table_extends | assumption |].
    intros idx. apply index_table_reaches_table, Ht.
  - intros column t Hcol Ht.
    apply (fold_left_reaches index_table _ (table_name, table_info));
      [apply index_table_extends | assumption |].
    intros idx. apply index_table_reaches_column; assumption.
Qed.

End Complete.

Lemma search_index_complete_witness :
  In "dbo.Customers"
    (bucket "customers" (generate_search_index Fixtures.customers_schema)).
Proof.
  destruct (search_index_complete Fixtures.customers_schema "dbo.Customers"
              Fixtures.customers) as [Htable _]; [left; reflexivity|].
  apply (Htable "Customers").
  apply UtilsFacts.create_search_terms_In. split; [|reflexivity].
  apply UtilsFacts.search_term_candidates_original.
Defined.

End IndexFacts.

(** ** Lookups in the assembled mapping *)

Module AssemblyFacts.
Import Py Utils MappingGenerator PyDictFacts.

Lemma get_of_entries {A V : Type} (key : A -> string) (value : A -> V)
    (xs : list A) (x : A) :
  NoDup (List.map key xs) -> In x xs ->
  PyDict.get (key x) (List.map (fun x => (key x, value x)) xs) = Some (value x).
Proof.
  induction xs as [|y xs IH]; simpl; intros Hnd Hx; [contradiction|].
  inversion Hnd as [|? ? Hy Hnd']; subst.
  destruct Hx as [->|Hx]; [rewrite String.eqb_refl; reflexivity|].
  destruct (String.eqb_spec (key x) (key y)) as [Heq|Hne]; [|auto].
  exfalso. apply Hy. rewrite <- Heq. apply in_map, Hx.
Qed.

Section AnyOrder.
Context `{SetOrder}.

(** In a table whose column names are distinct, the column mappings are
    keyed by the column names, in the order of the columns, and each
    column name leads to the mapping of its column. *)
Theorem generate_table_mapping_lookup (table_info : TableInfo.t) :
  NoDup (List.map ColumnInfo.name (TableInfo.columns table_info)) ->
  let columns := t_columns (generate_table_mapping table_info) in
  PyDict.keys columns = List.map ColumnInfo.name (TableInfo.columns table_info)
  /\ forall column, In column (TableInfo.columns table_info) ->
       PyDict.get (ColumnInfo.name column) columns
       = Some (generate_column_mapping table_info column).
Proof.
  intros Hnd columns. subst columns.
  assert (Hcolumns :
    t_columns (generate_table_mapping table_info)
    = List.map (fun column => (ColumnInfo.name column,
                               generate_column_mapping table_info column))
        (TableInfo.columns table_info)).
  { apply (build_distinct ColumnInfo.name (generate_column_mapping table_info)
             (TableInfo.columns table_info) []).
    exact Hnd. }
  rewrite Hcolumns. split.
  - unfold PyDict.keys. rewrite List.map_map. reflexivity.
  - intros column Hcol.
    apply (get_of_entries ColumnInfo.name (generate_column_mapping table_info));
      assumption.
Qed.

(** The table mappings of a database mapping are keyed as the schema is,
    in its order, and each key leads to the mapping of its table. *)
Theorem generate_database_mapping_lookup (self : MappingGenerator.t)
    (generation_date schema_extraction_date : string)
    (schema_info : PyDict.t TableInfo.t) (mapping : DatabaseMapping) :
  PyDict.wf schema_info ->
  generate_database_mapping self generation_date schema_extraction_date schema_info
  = Some mapping ->
  PyDict.keys (tables mapping) = PyDict.keys schema_info
  /\ (forall table_name table_info,
        In (table_name, table_info) (PyDict.items schema_info) ->
        PyDict.get table_name (tables mapping)
        = Some (generate_table_mapping table_info))
  /\ search_index mapping = generate_search_index schema_info.
Proof.
  intros Hwf. unfold generate_database_mapping.
  destruct (PyDict.len schema_info =? 0); [discriminate|].
  intros [= <-]. cbn [tables search_index].
  rewrite MappingFacts.tables_of_schema by assumption.
  repeat split.
  - unfold PyDict.keys. rewrite List.map_map. reflexivity.
  - intros table_name table_info Hentry.
    apply (get_of_entries fst (fun entry => generate_table_mapping (snd entry))
             schema_info (table_name, table_info)); assumption.
Qed.

End AnyOrder.

Lemma generate_table_mapping_lookup_witness :
  PyDict.keys (t_columns (generate_table_mapping Fixtures.customers))
  = ["CustomerID"; "CustomerName"].
Proof.
  apply (generate_table_mapping_lookup Fixtures.customers).
  apply NoDup_cons; [simpl; intros [Heq|[]]; discriminate|].
  apply NoDup_cons; [simpl; tauto | apply NoDup_nil].
Defined.

Lemma generate_database_mapping_lookup_witness :
  exists mapping, PyDict.keys (tables mapping) = ["dbo.Customers"].
Proof.
  eexists.
  refine (proj1 (generate_database_mapping_lookup Fixtures.generator
                   "2024-01-01T00:00:00" "2024-01-01T00:00:01"
                   Fixtures.customers_schema _ _ _)).
  - apply NoDup_cons; [simpl; tauto | apply NoDup_nil].
  - reflexivity.
Defined.

(** *** What a category needs *)

Ltac split_conditions :=
  repeat match goal with
         | |- context [if ?b then _ else _] => destruct b eqn:?
         end.

(** The classifier gives a numeric category only to a column without key
    flag whose type is numeric, and a text category only to a column
    without key flag whose type is a character type. *)
Theorem category_needs_type (column : ColumnInfo.t) :
  let type_lower := lower (ColumnInfo.data_type column) in
  let category := determine_column_category column in
  (In category ["money"; "quantity"; "numeric"] ->
   any_in ["int"; "decimal"; "numeric"; "float"; "money"] type_lower = true
   /\ ColumnInfo.is_primary_key column = false
   /\ ColumnInfo.is_foreign_key column = false)
  /\ (In category ["email"; "phone"; "address"; "name"; "description"; "text"] ->
      any_in ["varchar"; "text"; "char"] type_lower = true
      /\ ColumnInfo.is_primary_key column = false
      /\ ColumnInfo.is_foreign_key column = false).
Proof.
  intros type_lower category. subst type_lower category.
  unfold determine_column_category.
  split; split_conditions; simpl; intros Hcat;
    repeat (destruct Hcat as [Hcat|Hcat]; try discriminate Hcat);
    try contradiction; auto.
Qed.

Lemma category_needs_type_witness :
  any_in ["int"; "decimal"; "numeric"; "float"; "money"] (lower "decimal") = true
  /\ ColumnInfo.is_primary_key Fixtures.unit_price = false
  /\ ColumnInfo.is_foreign_key Fixtures.unit_price = false.
Proof.
  apply (proj1 (category_needs_type Fixtures.unit_price)).
  left. reflexivity.
Defined.

End AssemblyFacts.

(** ** The configuration manager *)

Module ConfigFacts.
Import PyDictFacts ConfigManager.

(** A client has a connection string exactly when it is configured. *)
Theorem get_connection_string_configured (self : ConfigManager.t) (client_key : string) :
  get_connection_string self client_key = None
  <-> ~ In client_key (get_all_clients self).
Proof.
  unfold get_connection_string, get_all_clients, get_database_config.
  rewrite <- get_None.
  destruct (PyDict.get client_key (databases self)) as [config|].
  - destruct (DatabaseConfig.trusted_connection config); split; discriminate.
  - split; reflexivity.
Qed.

(** Adding a configuration makes it the configuration of its client and
    leaves the other clients as they were; a new client is listed last, a
    known client keeps its place, and no client is listed twice. *)
Theorem add_database_config_lookup (self : ConfigManager.t)
    (client_key : string) (config : DatabaseConfig.t) :
  let self' := add_database_config self client_key config in
  get_database_config self' client_key = Some config
  /\ (forall other, other <> client_key ->
        get_database_config self' other = get_database_config self other)
  /\ get_all_clients self'
     = (if PyDict.has client_key (databases self)
        then get_all_clients self
        else get_all_clients self ++ [client_key])
  /\ (NoDup (get_all_clients self) -> NoDup (get_all_clients self')).
Proof.
  intro self'. subst self'.
  unfold get_database_config, get_all_clients, add_database_config. simpl.
  repeat split.
  - apply get_set_eq.
  - intros other Hne. apply get_set_ne. congruence.
  - apply keys_set.
  - apply wf_set.
Qed.

Lemma add_database_config_lookup_witness :
  get_database_config
    (add_database_config ExtractorFixtures.two_clients "client_a"
       (MappingGenerator.config Fixtures.generator)) "client_b"
  = None.
Proof.
  destruct (add_database_config_lookup ExtractorFixtures.two_clients "client_a"
              (MappingGenerator.config Fixtures.generator)) as [_ [Hother _]].
  rewrite (Hother "client_b"); [reflexivity | discriminate].
Defined.

End ConfigFacts.

(** ** From query results to descriptors *)

Module ExtractorFacts.
Import Py PyDictFacts SchemaExtractor ExtractorNotions ExtractorFixtures Text.

(** *** Table names *)

Lemma contains_dot_cons (c : ascii) (r : string) :
  contains "." (String c r) = Ascii.eqb c "." || contains "." r.
Proof.
  change (contains "." (String c r))
    with ((if ascii_dec "." c then prefix "" r else false) || contains "." r).
  destruct (ascii_dec "." c) as [<-|Hne].
  - destruct r; reflexivity.
  - destruct (Ascii.eqb_spec c "."); [congruence | reflexivity].
Qed.

Lemma parse_joined (schema table : string) :
  free_of "." schema = true ->
  contains "." (schema ++ "." ++ table) = true
  /\ before_dot (schema ++ "." ++ table) = schema
  /\ after_dot (schema ++ "." ++ table) = table.
Proof.
  unfold free_of. induction schema as [|c schema IH]; intros Hfree.
  - repeat split. destruct table; reflexivity.
  - simpl in Hfree. apply andb_true_iff in Hfree as [Hc Hfree].
    apply negb_true_iff in Hc. destruct (IH Hfree) as [Hin [Hb Ha]].
    change (String c schema ++ "." ++ table)%string
      with (String c (schema ++ "." ++ table)).
    rewrite contains_dot_cons. cbn [before_dot after_dot].
    rewrite Hc, Hin, Hb, Ha. repeat split.
Qed.

Lemma split_at_dot (table_name : string) :
  contains "." table_name = true ->
  (before_dot table_name ++ "." ++ after_dot table_name)%string = table_name
  /\ free_of "." (before_dot table_name) = true.
Proof.
  unfold free_of. induction table_name as [|c r IH]; [discriminate|].
  rewrite contains_dot_cons. cbn [before_dot after_dot].
  destruct (Ascii.eqb_spec c ".") as [->|Hne].
  - intros _. split; reflexivity.
  - intros Hr. destruct (IH Hr) as [Hjoin Hfree]. split.
    + change (String c (before_dot r ++ "." ++ after_dot r)%string = String c r).
      f_equal. exact Hjoin.
    + cbn [forallb]. rewrite Hfree, andb_true_r.
      apply negb_true_iff, Ascii.eqb_neq, Hne.
Qed.

(** The full name [schema.table] is parsed back into its schema and its
    table when the schema has no dot.  In general a name with a dot is cut
    at its first dot, the two parts and a dot making the name again, and a
    name without dot is a table of the schema [dbo]. *)
Theorem parse_table_name_round_trip (table_name : string) :
  (forall schema table,
     free_of "." schema = true ->
     parse_table_name (schema ++ "." ++ table) = (schema, table))
  /\ (contains "." table_name = true ->
      (fst (parse_table_name table_name) ++ "."
       ++ snd (parse_table_name table_name))%string = table_name
      /\ free_of "." (fst (parse_table_name table_name)) = true)
  /\ (contains "." table_name = false ->
      parse_table_name table_name = ("dbo", table_name)).
Proof.
  unfold parse_table_name. split; [|split].
  - intros schema table Hfree.
    destruct (parse_joined schema table Hfree) as [-> [-> ->]]. reflexivity.
  - intros Hdot. rewrite Hdot. apply split_at_dot, Hdot.
  - intros Hdot. rewrite Hdot. reflexivity.
Qed.

Lemma parse_table_name_round_trip_witness :
  parse_table_name ("dbo" ++ "." ++ "Order.Items") = ("dbo", "Order.Items").
Proof.
  apply (parse_table_name_round_trip "").
  reflexivity.
Defined.

(** *** The foreign-key loop *)

(** On the dictionaries that [get_foreign_keys] builds no key is missing,
    and the loop is [mark_first]. *)
Lemma mark_foreign_key_row (row : ForeignKeyRow) (columns : list ColumnInfo.t) :
  mark_foreign_key (fk_info_of_row row) columns = Some (mark_first row columns).
Proof.
  induction columns as [|column rest IH]; [reflexivity|].
  cbn [mark_foreign_key mark_first].
  change (PyDict.get "column" (fk_info_of_row row)) with (Some (FK_COLUMN_NAME row)).
  cbv iota beta.
  destruct (String.eqb (ColumnInfo.name column) (FK_COLUMN_NAME row)).
  - reflexivity.
  - rewrite IH. reflexivity.
Qed.

Lemma mark_foreign_keys_rows (rows : list ForeignKeyRow) (columns : list ColumnInfo.t) :
  mark_foreign_keys (List.map fk_info_of_row rows) columns
  = Some (mark_all rows columns).
Proof.
  unfold mark_foreign_keys, mark_all. revert columns.
  induction rows as [|row rows IH]; intros columns; [reflexivity|].
  cbn [List.map fold_left]. rewrite mark_foreign_key_row. apply IH.
Qed.

Lemma without_fk_mark_first (row : ForeignKeyRow) (columns : list ColumnInfo.t) :
  List.map without_fk (mark_first row columns) = List.map without_fk columns.
Proof.
  induction columns as [|column rest IH]; [reflexivity|].
  cbn [mark_first]. destruct (String.eqb _ _); cbn [List.map].
  - reflexivity.
  - rewrite IH. reflexivity.
Qed.

Lemma without_fk_mark_all (rows : list ForeignKeyRow) (columns : list ColumnInfo.t) :
  List.map without_fk (mark_all rows columns) = List.map without_fk columns.
Proof.
  unfold mark_all. revert columns.
  induction rows as [|row rows IH]; intros columns; [reflexivity|].
  cbn [fold_left]. rewrite IH. apply without_fk_mark_first.
Qed.

Lemma consistent_mark_first (rows : list ForeignKeyRow) (row : ForeignKeyRow)
    (columns : list ColumnInfo.t) :
  In row rows ->
  Forall (fk_consistent rows) columns ->
  Forall (fk_consistent rows) (mark_first row columns).
Proof.
  intros Hrow. induction 1 as [|column rest Hc Hrest IH]; [constructor|].
  cbn [mark_first].
  destruct (String.eqb_spec (ColumnInfo.name column) (FK_COLUMN_NAME row)) as [Heq|Hne].
  - constructor; [|assumption].
    intros _. exists row. split; [assumption|].
    repeat split. simpl. congruence.
  - constructor; assumption.
Qed.

Lemma consistent_mark_all (rows all : list ForeignKeyRow) (columns : list ColumnInfo.t) :
  incl rows all ->
  Forall (fk_consistent all) columns ->
  Forall (fk_consistent all) (mark_all rows columns).
Proof.
  unfold mark_all. revert columns.
  induction rows as [|row rows IH]; intros columns Hincl Hcols; [assumption|].
  cbn [fold_left]. apply IH.
  - intros r Hr. apply Hincl. right. assumption.
  - apply consistent_mark_first; [apply Hincl; left; reflexivity | assumption].
Qed.

Lemma flagged_mark_first (row : ForeignKeyRow) (columns : list ColumnInfo.t)
    (name : string) :
  (flagged name columns -> flagged name (mark_first row columns))
  /\ (In (FK_COLUMN_NAME row) (List.map ColumnInfo.name columns) ->
      flagged (FK_COLUMN_NAME row) (mark_first row columns)).
Proof.
  induction columns as [|column rest [IHkeep IHnew]].
  - split; [intros [c [[] _]] | intros []].
  - cbn [mark_first].
    destruct (String.eqb_spec (ColumnInfo.name column) (FK_COLUMN_NAME row)) as [Heq|Hne].
    + split.
      * intros [c [[Hhead|Hc] [Hn Hf]]].
        -- subst c. eexists. split; [left; reflexivity|].
           split; [exact Hn | reflexivity].
        -- exists c. split; [right; assumption | auto].
      * intros _. eexists. split; [left; reflexivity|].
        split; [exact Heq | reflexivity].
    + split.
      * intros [c [[Hhead|Hc] [Hn Hf]]].
        -- subst c. exists column. split; [left; reflexivity | auto].
        -- destruct IHkeep as [c' [Hc' Hrest]]; [exists c; auto|].
           exists c'. split; [right; assumption | exact Hrest].
      * intros [Heq|Hin]; [contradiction|].
        destruct (IHnew Hin) as [c' [Hc' Hrest]].
        exists c'. split; [right; assumption | exact Hrest].
Qed.

Lemma names_mark_first (row : ForeignKeyRow) (columns : list ColumnInfo.t) :
  List.map ColumnInfo.name (mark_first row columns) = List.map ColumnInfo.name columns.
Proof.
  induction columns as [|column rest IH]; [reflexivity|].
  cbn [mark_first]. destruct (String.eqb _ _); cbn [List.map].
  - reflexivity.
  - rewrite IH. reflexivity.
Qed.

Lemma flagged_mark_all (rows : list ForeignKeyRow) (columns : list ColumnInfo.t)
    (row : ForeignKeyRow) :
  In row rows ->
  In (FK_COLUMN_NAME row) (List.map ColumnInfo.name columns) ->
  flagged (FK_COLUMN_NAME row) (mark_all rows columns).
Proof.
  unfold mark_all.
  assert (Hkeep : forall rows columns name,
            flagged name columns ->
            flagged name (fold_left (fun columns row => mark_first row columns)
                            rows columns)).
  { clear. induction rows as [|r rows IH]; intros columns name Hf; [assumption|].
    cbn [fold_left]. apply IH, (flagged_mark_first r columns name), Hf. }
  revert columns. induction rows as [|r rows IH]; intros columns Hrow Hname.
  - contradiction.
  - cbn [fold_left]. destruct Hrow as [->|Hrow].
    + apply Hkeep, (flagged_mark_first row columns (FK_COLUMN_NAME row)), Hname.
    + apply IH; [assumption|]. rewrite names_mark_first. assumption.
Qed.

Lemma primary_keys_without_fk (xs ys : list ColumnInfo.t) :
  List.map without_fk xs = List.map without_fk ys ->
  List.map ColumnInfo.name (filter ColumnInfo.is_primary_key xs)
  = List.map ColumnInfo.name (filter ColumnInfo.is_primary_key ys).
Proof.
  revert ys. induction xs as [|x xs IH]; intros [|y ys] Heq;
    try discriminate; [reflexivity|].
  cbn [List.map] in Heq. injection Heq as Hname _ _ _ _ Hpk Hrest.
  cbn [filter]. rewrite Hpk.
  destruct (ColumnInfo.is_primary_key y); cbn [List.map];
    rewrite ?Hname, (IH ys Hrest); reflexivity.
Qed.

(** *** [get_table_info] *)

Lemma get_foreign_keys_rows (db : Database) (table_name : string) :
  get_foreign_keys db table_name
  = List.map fk_info_of_row (foreign_key_rows db table_name).
Proof.
  unfold get_foreign_keys, foreign_key_rows.
  destruct (parse_table_name table_name) as [schema table]. simpl.
  destruct (foreign_keys_query db schema table); reflexivity.
Qed.

Lemma get_table_columns_unmarked (db : Database) (table_name : string) :
  List.map without_fk (get_table_columns db table_name) = get_table_columns db table_name
  /\ Forall (fun column => ColumnInfo.is_foreign_key column = false)
       (get_table_columns db table_name).
Proof.
  unfold get_table_columns.
  destruct (parse_table_name table_name) as [schema table].
  destruct (columns_query db schema table) as [rows|]; [|split; constructor].
  split.
  - rewrite List.map_map. apply map_ext. reflexivity.
  - apply Forall_map, Forall_forall. reflexivity.
Qed.

(** What [get_table_info] returns, in one equation. *)
Lemma get_table_info_eq (db : Database) (table_name : string) :
  get_table_info db table_name
  = match get_table_columns db table_name with
    | [] => None
    | _ :: _ =>
        let columns :=
          mark_all (foreign_key_rows db table_name) (get_table_columns db table_name) in
        Some {| TableInfo.name := snd (parse_table_name table_name);
                TableInfo.schema := fst (parse_table_name table_name);
                TableInfo.columns := columns;
                TableInfo.primary_keys :=
                  List.map ColumnInfo.name (filter ColumnInfo.is_primary_key columns);
                TableInfo.foreign_keys := get_foreign_keys db table_name;
                TableInfo.row_count := get_table_row_count db table_name |}
    end.
Proof.
  unfold get_table_info.
  destruct (parse_table_name table_name) as [schema table] eqn:Hparse.
  destruct (get_table_columns db table_name) as [|column rest] eqn:Hcols;
    [reflexivity|].
  rewrite get_foreign_keys_rows, mark_foreign_keys_rows. reflexivity.
Qed.

(** A table is described exactly when the database lists a column for
    it; the loop over the foreign keys never fails. *)
Theorem get_table_info_none (db : Database) (table_name : string) :
  get_table_info db table_name = None <-> get_table_columns db table_name = [].
Proof.
  rewrite get_table_info_eq.
  destruct (get_table_columns db table_name); split; try reflexivity; discriminate.
Qed.

(** The descriptor of a table has the columns that the database lists, in
    their order and with their fields, the foreign-key fields apart; it
    has at least one; its primary keys are the names of the columns with
    the primary-key flag, so names of columns; and its schema and name
    are the two parts of the table name. *)
Theorem get_table_info_columns (db : Database) (table_name : string)
    (table_info : TableInfo.t) :
  get_table_info db table_name = Some table_info ->
  TableInfo.columns table_info <> []
  /\ List.map without_fk (TableInfo.columns table_info) = get_table_columns db table_name
  /\ TableInfo.primary_keys table_info
     = List.map ColumnInfo.name
         (filter ColumnInfo.is_primary_key (get_table_columns db table_name))
  /\ incl (TableInfo.primary_keys table_info)
       (List.map ColumnInfo.name (TableInfo.columns table_info))
  /\ (TableInfo.schema table_info, TableInfo.name table_info)
     = parse_table_name table_name.
Proof.
  rewrite get_table_info_eq.
  destruct (get_table_columns db table_name) as [|column rest] eqn:Hcols;
    [discriminate|].
  rewrite <- Hcols. intros [= <-]. cbn [TableInfo.columns TableInfo.primary_keys
                                        TableInfo.schema TableInfo.name].
  assert (Hsame :
    List.map without_fk
      (mark_all (foreign_key_rows db table_name) (get_table_columns db table_name))
    = get_table_columns db table_name).
  { rewrite without_fk_mark_all. apply get_table_columns_unmarked. }
  repeat split.
  - intros Hnil. rewrite Hnil in Hsame. rewrite Hcols in Hsame. discriminate.
  - exact Hsame.
  - apply primary_keys_without_fk. rewrite Hsame.
    symmetry. apply get_table_columns_unmarked.
  - intros name Hname. apply in_map_iff in Hname as [c [<- Hc]].
    apply filter_In in Hc as [Hc _]. apply in_map, Hc.
  - destruct (parse_table_name table_name); reflexivity.
Qed.

(** In the descriptor of a table, a column flagged as foreign key has the
    referenced table and column of a foreign-key row of its name; and for
    each foreign-key row whose column the table has, a column of that
    name is flagged. *)
Theorem get_table_info_foreign_keys (db : Database) (table_name : string)
    (table_info : TableInfo.t) :
  get_table_info db table_name = Some table_info ->
  Forall (fk_consistent (foreign_key_rows db table_name)) (TableInfo.columns table_info)
  /\ (forall row,
        In row (foreign_key_rows db table_name) ->
        In (FK_COLUMN_NAME row) (List.map ColumnInfo.name (TableInfo.columns table_info)) ->
        flagged (FK_COLUMN_NAME row) (TableInfo.columns table_info)).
Proof.
  rewrite get_table_info_eq.
  destruct (get_table_columns db table_name) as [|column rest] eqn:Hcols;
    [discriminate|].
  rewrite <- Hcols. intros [= <-]. cbn [TableInfo.columns]. split.
  - apply consistent_mark_all; [apply incl_refl|].
    eapply Forall_impl; [|apply get_table_columns_unmarked].
    intros c Hc Hflag. congruence.
  - intros row Hrow Hname. apply flagged_mark_all; [assumption|].
    unfold mark_all in Hname.
    assert (Hnames : forall rows columns,
              List.map ColumnInfo.name
                (fold_left (fun columns row => mark_first row columns) rows columns)
              = List.map ColumnInfo.name columns).
    { clear. induction rows as [|r rows IH]; intros columns; [reflexivity|].
      cbn [fold_left]. rewrite IH. apply names_mark_first. }
    rewrite Hnames in Hname. exact Hname.
Qed.

Lemma get_table_info_columns_witness :
  exists table_info,
    get_table_info orders_db "dbo.Orders" = Some table_info
    /\ TableInfo.primary_keys table_info = ["OrderID"]
    /\ (TableInfo.schema table_info, TableInfo.name table_info) = ("dbo", "Orders").
Proof.
  eexists. split; [reflexivity|].
  destruct (get_table_info_columns orders_db "dbo.Orders" _ eq_refl)
    as [_ [_ [Hpk [_ Hname]]]].
  split; [exact Hpk | exact Hname].
Defined.

Lemma get_table_info_foreign_keys_witness :
  exists table_info,
    get_table_info orders_db "dbo.Orders" = Some table_info
    /\ flagged "CustomerID" (TableInfo.columns table_info).
Proof.
  eexists. split; [reflexivity|].
  destruct (get_table_info_foreign_keys orders_db "dbo.Orders" _ eq_refl)
    as [_ Hflag].
  apply (Hflag customer_fk_row).
  - left. reflexivity.
  - right. left. reflexivity.
Defined.

(** *** [extract_full_schema] *)

Lemma get_keep_tables (db : Database) (tables : list string)
    (schema_info : PyDict.t TableInfo.t) (table_name : string) :
  PyDict.get table_name (fold_left (keep_table db) tables schema_info)
  = if mem table_name tables
    then match get_table_info db table_name with
         | Some table_info => Some table_info
         | None => PyDict.get table_name schema_info
         end
    else PyDict.get table_name schema_info.
Proof.
  revert schema_info. induction tables as [|t tables IH]; intros schema_info;
    [reflexivity|].
  cbn [fold_left]. rewrite IH. unfold mem. cbn [existsb]. fold (mem table_name tables).
  destruct (String.eqb_spec table_name t) as [<-|Hne]; simpl.
  - unfold keep_table.
    destruct (get_table_info db table_name) as [table_info|] eqn:Hinfo.
    + destruct (mem table_name tables); [reflexivity | apply get_set_eq].
    + destruct (mem table_name tables); reflexivity.
  - assert (Hsame : PyDict.get table_name (keep_table db schema_info t)
                    = PyDict.get table_name schema_info).
    { unfold keep_table. destruct (get_table_info db t); [|reflexivity].
      apply get_set_ne. congruence. }
    rewrite Hsame. reflexivity.
Qed.

Lemma get_extract_full_schema (db : Database) (schema_filter : option string)
    (table_name : string) :
  PyDict.get table_name (extract_full_schema db schema_filter)
  = if mem table_name (get_tables db schema_filter)
    then get_table_info db table_name else None.
Proof.
  unfold extract_full_schema.
  change (fold_left _ (get_tables db schema_filter) PyDict.empty)
    with (fold_left (keep_table db) (get_tables db schema_filter) PyDict.empty).
  rewrite get_keep_tables.
  destruct (mem _ _); [|reflexivity].
  destruct (get_table_info db table_name); reflexivity.
Qed.

Lemma wf_extract_full_schema (db : Database) (schema_filter : option string) :
  PyDict.wf (extract_full_schema db schema_filter).
Proof.
  unfold extract_full_schema.
  change (fold_left _ (get_tables db schema_filter) PyDict.empty)
    with (fold_left (keep_table db) (get_tables db schema_filter) PyDict.empty).
  apply IndexFacts.fold_left_invariant; [|constructor].
  intros schema_info t _ Hwf. unfold keep_table.
  destruct (get_table_info db t); [apply wf_set, Hwf | exact Hwf].
Qed.

(** The extracted schema has, under the name of each listed table, the
    descriptor of that table when it has one, and nothing else; no name
    is a key twice. *)
Theorem extract_full_schema_lookup (db : Database) (schema_filter : option string)
    (table_name : string) :
  PyDict.get table_name (extract_full_schema db schema_filter)
  = (if mem table_name (get_tables db schema_filter)
     then get_table_info db table_name else None)
  /\ PyDict.wf (extract_full_schema db schema_filter).
Proof. split; [apply get_extract_full_schema | apply wf_extract_full_schema]. Qed.

Lemma contains_dot_joined (schema table : string) :
  contains "." (schema ++ "." ++ table) = true.
Proof.
  induction schema as [|c schema IH].
  - destruct table; reflexivity.
  - change (String c schema ++ "." ++ table)%string
      with (String c (schema ++ "." ++ table)).
    rewrite contains_dot_cons, IH. apply orb_true_r.
Qed.

Lemma listed_table_has_dot (db : Database) (schema_filter : option string)
    (table_name : string) :
  In table_name (get_tables db schema_filter) -> contains "." table_name = true.
Proof.
  unfold get_tables. destruct (tables_query db _) as [rows|]; [|intros []].
  intros Hin. apply in_map_iff in Hin as [row [<- _]].
  apply contains_dot_joined.
Qed.

Lemma extracted_entry (db : Database) (schema_filter : option string)
    (table_name : string) (table_info : TableInfo.t) :
  PyDict.get table_name (extract_full_schema db schema_filter) = Some table_info ->
  In table_name (get_tables db schema_filter)
  /\ get_table_info db table_name = Some table_info.
Proof.
  rewrite get_extract_full_schema.
  destruct (mem table_name (get_tables db schema_filter)) eqn:Hmem; [|discriminate].
  intros Hinfo. split; [apply IndexFacts.mem_In, Hmem | exact Hinfo].
Qed.

Section AnyOrder.
Context `{SetOrder}.

(** Every table of an extracted schema has at least one column, and the
    technical name of its mapping is its key in the schema. *)
Theorem extracted_table_mapping (db : Database) (schema_filter : option string)
    (table_name : string) (table_info : TableInfo.t) :
  PyDict.get table_name (extract_full_schema db schema_filter) = Some table_info ->
  TableInfo.columns table_info <> []
  /\ MappingGenerator.t_technical_name
       (MappingGenerator.generate_table_mapping table_info) = table_name.
Proof.
  intros Hget. apply extracted_entry in Hget as [Hlisted Hinfo].
  apply listed_table_has_dot in Hlisted.
  rewrite get_table_info_eq in Hinfo.
  destruct (get_table_columns db table_name) as [|column rest] eqn:Hcols;
    [discriminate|].
  rewrite <- Hcols in Hinfo. injection Hinfo as <-. split.
  - cbn [TableInfo.columns]. intros Hnil.
    pose proof (without_fk_mark_all (foreign_key_rows db table_name)
                  (get_table_columns db table_name)) as Hsame.
    rewrite Hnil, Hcols in Hsame. discriminate.
  - cbn [MappingGenerator.generate_table_mapping MappingGenerator.t_technical_name
         TableInfo.schema TableInfo.name].
    unfold parse_table_name. rewrite Hlisted. cbn [fst snd].
    apply split_at_dot, Hlisted.
Qed.

(** The mapping of an extracted schema is empty exactly when the database
    lists no column for any of the listed tables. *)
Theorem extracted_mapping_empty (self : MappingGenerator.t)
    (generation_date schema_extraction_date : string)
    (db : Database) (schema_filter : option string) :
  MappingGenerator.generate_database_mapping self generation_date
    schema_extraction_date (extract_full_schema db schema_filter) = None
  <-> forall table_name,
        In table_name (get_tables db schema_filter) ->
        get_table_columns db table_name = [].
Proof.
  unfold MappingGenerator.generate_database_mapping.
  set (schema_info := extract_full_schema db schema_filter).
  assert (Hempty : PyDict.len schema_info = 0
                   <-> forall table_name, PyDict.get table_name schema_info = None).
  { destruct schema_info as [|[k v] rest]; simpl.
    - split; reflexivity.
    - split; [discriminate|]. intros Hall. specialize (Hall k).
      simpl in Hall. rewrite String.eqb_refl in Hall. discriminate. }
  assert (Hnone : (forall table_name, PyDict.get table_name schema_info = None)
                  <-> forall table_name,
                        In table_name (get_tables db schema_filter) ->
                        get_table_columns db table_name = []).
  { subst schema_info. split.
    - intros Hall table_name Hin. specialize (Hall table_name).
      rewrite get_extract_full_schema in Hall.
      assert (Hmem : mem table_name (get_tables db schema_filter) = true).
      { apply existsb_exists. exists table_name.
        split; [assumption | apply String.eqb_refl]. }
      rewrite Hmem, get_table_info_eq in Hall.
      destruct (get_table_columns db table_name); [reflexivity | discriminate].
    - intros Hall table_name. rewrite get_extract_full_schema.
      destruct (mem table_name (get_tables db schema_filter)) eqn:Hmem;
        [|reflexivity].
      rewrite get_table_info_eq, (Hall table_name (IndexFacts.mem_In _ _ Hmem)).
      reflexivity. }
  destruct (PyDict.len schema_info =? 0) eqn:Hlen.
  - apply Nat.eqb_eq in Hlen. split; [|reflexivity].
    intros _. apply Hnone, Hempty, Hlen.
  - apply Nat.eqb_neq in Hlen. split; [discriminate|].
    intros Hall. exfalso. apply Hlen, Hempty, Hnone, Hall.
Qed.

End AnyOrder.

Lemma extracted_table_mapping_witness :
  exists table_info,
    PyDict.get "dbo.Orders" (extract_full_schema orders_db None) = Some table_info
    /\ MappingGenerator.t_technical_name
         (MappingGenerator.generate_table_mapping table_info) = "dbo.Orders".
Proof.
  eexists. split; [reflexivity|].
  apply (extracted_table_mapping orders_db None "dbo.Orders" _ eq_refl).
Defined.

End ExtractorFacts.
